(** * Chat client controller and request context builder

    A shallow embedding of two TypeScript sources:

    - [QChatTriggerContext] (intent guessing and the outbound request
      payload), embedded in [Module Trigger];
    - [mynahUi.ts] (the prompt-submit handler, the tab helpers, the streaming
      response merger, the error display and the context-command
      translator), embedded in [Module MynahUi].

    JavaScript values are modelled as follows.  An optional property
    ([x?: T]) is an [option]: [None] is [undefined].  Strings are
    [string]s.  Line numbers are integers ([Z]).  Objects used as
    dictionaries whose entry order is observable ([Object.entries]) are
    association lists; the tab table of the UI store is a [gmap]. *)

From stdpp Require Import gmap strings list fin_maps pretty.

Open Scope string_scope.

(** ** JavaScript primitives used by both sources *)

Module Js.

(** Truthiness of an optional string: [undefined] and [''] are falsy. *)
Definition truthy_string (s : option string) : bool :=
  match s with
  | Some s' => negb (String.eqb s' "")
  | None => false
  end.

(** [a ?? b] where [b] is itself optional. *)
Definition nullish {A} (a b : option A) : option A :=
  match a with Some _ => a | None => b end.

(** [a ?? b] where [b] is a value. *)
Definition nullish_or {A} (a : option A) (b : A) : A :=
  match a with Some x => x | None => b end.

(** [Array.prototype.join] on strings. *)
Fixpoint join (sep : string) (l : list string) : string :=
  match l with
  | [] => ""
  | [x] => x
  | x :: rest => x +:+ sep +:+ join sep rest
  end.

(** [s || d] on strings: the empty string is falsy. *)
Definition or_string (s d : string) : string :=
  if String.eqb s "" then d else s.

(** *** Regular expressions of the shape [/^literal/i]

    Without the [u] flag, case-insensitive matching compares the
    canonical form of each character, which is its upper-case form for
    ASCII letters; a character outside ASCII is never mapped into
    ASCII, so only the two ASCII cases of a pattern letter match it. *)

Definition is_lower (c : Ascii.ascii) : bool :=
  let n := Ascii.N_of_ascii c in (97 <=? n)%N && (n <=? 122)%N.

Definition is_upper (c : Ascii.ascii) : bool :=
  let n := Ascii.N_of_ascii c in (65 <=? n)%N && (n <=? 90)%N.

Definition canonicalize (c : Ascii.ascii) : Ascii.ascii :=
  if is_lower c then Ascii.ascii_of_N (Ascii.N_of_ascii c - 32) else c.

Definition to_lower (c : Ascii.ascii) : Ascii.ascii :=
  if is_upper c then Ascii.ascii_of_N (Ascii.N_of_ascii c + 32) else c.

Fixpoint toLowerCase (s : string) : string :=
  match s with
  | EmptyString => EmptyString
  | String c s' => String (to_lower c) (toLowerCase s')
  end.

Fixpoint all_lower (s : string) : bool :=
  match s with
  | EmptyString => true
  | String c s' => is_lower c && all_lower s'
  end.

(** [/^pat/i.test(s)]: the pattern is matched character by character at
    position 0 of [s]. *)
Fixpoint test_anchored_ci (pat s : string) : bool :=
  match pat with
  | EmptyString => true
  | String p pat' =>
      match s with
      | EmptyString => false
      | String c s' =>
          if Ascii.eqb (canonicalize p) (canonicalize c)
          then test_anchored_ci pat' s'
          else false
      end
  end.

End Js.

(** ** The request context builder ([QChatTriggerContext]) *)

Module Trigger.

Inductive UserIntent :=
  | EXPLAIN_CODE_SELECTION
  | SUGGEST_ALTERNATE_IMPLEMENTATION
  | APPLY_COMMON_BEST_PRACTICES
  | IMPROVE_CODE.

(** [#guessIntentFromPrompt(prompt?: string)]. *)
Definition guessIntentFromPrompt (prompt : option string) : option UserIntent :=
  match prompt with
  | None => None
  | Some p =>
      if Js.test_anchored_ci "explain" p then Some EXPLAIN_CODE_SELECTION
      else if Js.test_anchored_ci "refactor" p then Some SUGGEST_ALTERNATE_IMPLEMENTATION
      else if Js.test_anchored_ci "fix" p then Some APPLY_COMMON_BEST_PRACTICES
      else if Js.test_anchored_ci "optimize" p then Some IMPROVE_CODE
      else None
  end.

(** The specification's wording of a match: some prefix of the prompt
    is the keyword up to the case of its letters. *)
Definition ci_prefix (keyword prompt : string) : Prop :=
  ∃ pre rest, prompt = pre +:+ rest ∧ Js.toLowerCase pre = keyword.

(** The intent the specification assigns to a prompt: the first keyword,
    in priority order, that is a case-insensitive prefix. *)
Inductive spec_intent (p : string) : option UserIntent → Prop :=
  | SI_explain :
      ci_prefix "explain" p →
      spec_intent p (Some EXPLAIN_CODE_SELECTION)
  | SI_refactor :
      ¬ ci_prefix "explain" p → ci_prefix "refactor" p →
      spec_intent p (Some SUGGEST_ALTERNATE_IMPLEMENTATION)
  | SI_fix :
      ¬ ci_prefix "explain" p → ¬ ci_prefix "refactor" p → ci_prefix "fix" p →
      spec_intent p (Some APPLY_COMMON_BEST_PRACTICES)
  | SI_optimize :
      ¬ ci_prefix "explain" p → ¬ ci_prefix "refactor" p → ¬ ci_prefix "fix" p →
      ci_prefix "optimize" p →
      spec_intent p (Some IMPROVE_CODE)
  | SI_none :
      ¬ ci_prefix "explain" p → ¬ ci_prefix "refactor" p → ¬ ci_prefix "fix" p →
      ¬ ci_prefix "optimize" p →
      spec_intent p None.

(** *** The outbound request payload *)

Record ChatPrompt := {
  prompt : option string;
  escapedPrompt : option string;
  command : option string;
}.

Record Position := { line : Z; character : Z }.

Inductive CursorState :=
  | CursorPosition (position : Position)
  | CursorRange (rstart rend : Position).

Definition DEFAULT_CURSOR_STATE : CursorState :=
  CursorPosition {| line := 0; character := 0 |}.

(** [TriggerContext extends Partial<DocumentContext>]: the members the
    payload builder reads. *)
Record TriggerContext := {
  cursorState : option CursorState;
  text : option string;
  programmingLanguage : option string;
  relativeFilePath : option string;
  userIntent : option UserIntent;
}.

Section Payload.

(** The tool descriptors and the trigger kinds come from the streaming
    client's type declarations; the builder only passes them on. *)
Context {Tool ChatTriggerType : Type}.

Record Document := {
  doc_text : option string;
  doc_programmingLanguage : option string;
  doc_relativeFilePath : option string;
}.

Record EditorState := {
  es_cursorState : CursorState;
  es_document : Document;
}.

Record UserInputMessageContext := {
  editorState : option EditorState;
  tools : list Tool;
}.

Record UserInputMessage := {
  content : option string;
  userInputMessageContext : UserInputMessageContext;
  uim_userIntent : option UserIntent;
  origin : string;
}.

Record ConversationState := {
  chatTriggerType : ChatTriggerType;
  currentMessage : UserInputMessage;
  cs_customizationArn : option string;
}.

Record SendMessageCommandInput := {
  conversationState : ConversationState;
  smci_profileArn : option string;
}.

(** [getChatParamsFromTrigger]; [params] is read only through its
    [prompt], and an omitted [tools] argument takes the default [[]].
    The test [cursorState && relativeFilePath] is on truthiness: a cursor
    state is an object, a relative file path is a string. *)
Definition getChatParamsFromTrigger
    (params_prompt : ChatPrompt)
    (triggerContext : TriggerContext)
    (chatTriggerType' : ChatTriggerType)
    (customizationArn profileArn : option string)
    (tools_arg : option (list Tool)) : SendMessageCommandInput :=
  let tools' := Js.nullish_or tools_arg [] in
  {| conversationState := {|
       chatTriggerType := chatTriggerType';
       currentMessage := {|
         content := Js.nullish (escapedPrompt params_prompt) (prompt params_prompt);
         userInputMessageContext :=
           match cursorState triggerContext with
           | Some cs =>
               if Js.truthy_string (relativeFilePath triggerContext)
               then {| editorState := Some {|
                         es_cursorState := cs;
                         es_document := {|
                           doc_text := text triggerContext;
                           doc_programmingLanguage := programmingLanguage triggerContext;
                           doc_relativeFilePath := relativeFilePath triggerContext;
                         |};
                       |};
                       tools := tools' |}
               else {| editorState := None; tools := tools' |}
           | None => {| editorState := None; tools := tools' |}
           end;
         uim_userIntent := userIntent triggerContext;
         origin := "IDE";
       |};
       cs_customizationArn := customizationArn;
     |};
     smci_profileArn := profileArn;
  |}.

Definition messageOf (d : SendMessageCommandInput) : UserInputMessage :=
  currentMessage (conversationState d).

End Payload.

End Trigger.

(** ** The chat UI controller ([mynahUi.ts]) *)

Module MynahUi.

(** *** Backend results ([ChatResult]) *)

Record LineRange := { first : Z; second : Z }.

Record FileDetails := {
  fd_description : option string;
  lineRanges : option (list LineRange);
}.

(** [details] is a [Record<string, FileDetails>] traversed with
    [Object.entries]: an association list in key order. *)
Record FileList := {
  fl_rootFolderTitle : option string;
  filePaths : option (list string);
  details : option (list (string * FileDetails));
}.

Record ChatItemAction := {
  pillText : string;
  act_prompt : option string;
  act_type : option string;
}.

Record FollowUp := {
  fu_text : option string;
  fu_options : option (list ChatItemAction);
}.

Record SourceLink := { sl_title : string; sl_url : string }.

Record RelatedContent := {
  rc_title : option string;
  rc_content : list SourceLink;
}.

(** A result: the members [addChatResponse] reads or names, and in
    [cr_other] any further members of the object (name and value), which
    the code only counts and copies.  A member is a key of the object
    exactly when it is present. *)
Record ChatResult := {
  cr_type : option string;
  cr_body : option string;
  cr_messageId : option string;
  cr_canBeVoted : option bool;
  cr_relatedContent : option RelatedContent;
  cr_followUp : option FollowUp;
  cr_contextList : option FileList;
  cr_other : list (string * string);
}.

Definition emptyResult : ChatResult :=
  {| cr_type := None; cr_body := None; cr_messageId := None;
     cr_canBeVoted := None; cr_relatedContent := None;
     cr_followUp := None; cr_contextList := None; cr_other := [] |}.

Definition key {A} (o : option A) : nat :=
  match o with Some _ => 1 | None => 0 end.

(** [Object.keys(chatResult).length]. *)
Definition objectKeysLength (r : ChatResult) : nat :=
  key (cr_type r) + key (cr_body r) + key (cr_messageId r)
  + key (cr_canBeVoted r) + key (cr_relatedContent r)
  + key (cr_followUp r) + key (cr_contextList r) + length (cr_other r).

(** *** UI items *)

Inductive ChatItemType := PROMPT | ANSWER | ANSWER_STREAM | SYSTEM_PROMPT.

Global Instance ChatItemType_eq_dec : EqDecision ChatItemType.
Proof. solve_decision. Defined.

Record FileDetailEntry := {
  label : string;
  description : string;
  clickable : bool;
}.

Record HeaderFileList := {
  fileTreeTitle : string;
  hd_filePaths : option (list string);
  rootFolderTitle : string;
  flatList : bool;
  collapsed : bool;
  hideFileCount : bool;
  hd_details : list (string * FileDetailEntry);
}.

Record Header := { fileList : HeaderFileList }.

(** The content members of a chat item, that is, all but its [type].
    The same record is the [Partial<ChatItem>] handed to
    [updateLastChatAnswer].  [contextList] and the members in [other]
    are those the spread of a result carries along. *)
Record ChatItemFields := {
  body : option string;
  header : option Header;
  messageId : option string;
  followUp : option FollowUp;
  relatedContent : option RelatedContent;
  canBeVoted : option bool;
  contextList : option FileList;
  other : list (string * string);
}.

Record ChatItem := {
  ci_type : ChatItemType;
  ci_fields : ChatItemFields;
}.

Definition noFields : ChatItemFields :=
  {| body := None; header := None; messageId := None; followUp := None;
     relatedContent := None; canBeVoted := None; contextList := None;
     other := [] |}.

(** *** Context commands: the backend tree and the UI tree

    A command may carry groups of children, each group a list of
    commands again. *)
Inductive ContextCommand :=
  | mkContextCommand
      (cc_command : string)
      (cc_description cc_placeholder : option string)
      (cc_icon : option string)
      (cc_id : option string)
      (cc_route : option (list string))
      (cc_label : option string)
      (cc_children : option (list ContextCommandGroup))
with ContextCommandGroup :=
  | mkContextCommandGroup
      (ccg_groupName : option string)
      (ccg_commands : list ContextCommand).

Inductive QuickActionCommand :=
  | mkQuickActionCommand
      (qa_command : string)
      (qa_description qa_placeholder : option string)
      (qa_icon : option string)
      (qa_id : option string)
      (qa_route : option (list string))
      (qa_label : option string)
      (qa_children : option (list QuickActionCommandGroup))
with QuickActionCommandGroup :=
  | mkQuickActionCommandGroup
      (qag_groupName : option string)
      (qag_commands : list QuickActionCommand).

(** *** The per-tab store ([MynahUIDataModel])

    Every member is optional; the same record is a tab's store and the
    partial update handed to [updateStore]. *)
Record MynahUIDataModel := {
  chatItems : option (list ChatItem);
  loadingChat : option bool;
  promptInputDisabledState : option bool;
  contextCommands : option (list QuickActionCommandGroup);
}.

Inductive NotificationType := INFO | SUCCESS | WARNING | ERROR.

Record ChatPrompt := {
  prompt : option string;
  escapedPrompt : option string;
  command : option string;
}.

Record ErrorParams := {
  ep_tabId : string;
  ep_title : string;
  ep_message : string;
}.

(** Calls made on the UI object, in the order they are made. *)
Inductive UiCall :=
  | UpdateStore (tabId : string) (data : MynahUIDataModel)
  | AddChatItem (tabId : string) (item : ChatItem)
  | UpdateLastChatAnswer (tabId : string) (updateWith : ChatItemFields)
  | EndMessageStream (tabId : string) (msgId : string)
  | Notify (content : string) (type : NotificationType).

(** Messages handed to the [Messager], that is, to the backend channel. *)
Inductive Outbound :=
  | OnQuickActionCommand (quickAction : string) (qprompt : option string) (tabId : string)
  | OnChatPrompt (cprompt : ChatPrompt) (tabId : string) (triggerType : option string)
  | OnError (params : ErrorParams).

(** Constants of the source. *)
Definition DEFAULT_HELP_PROMPT : string := "What can Amazon Q help me with?".
Definition noMoreTabsTooltip : string :=
  "You can only open ten conversation tabs at a time.".
(** [mynahUiProps.config.maxTabs]. *)
Definition maxTabs : nat := 10.

(** *** The UI toolkit's store

    The [MynahUI] object comes from the UI toolkit.  Its state is the
    table of tab stores, the selected tab and the supply of tab
    identifiers, next to the default store it was configured with
    ([mynahUiProps.defaults]). *)
Record MynahUI := {
  tabs : gmap string MynahUIDataModel;
  selectedTabId : option string;
  uidCounter : nat;
  defaults : MynahUIDataModel;
}.

(** [{...old, ...data}] on stores, a member of [data] that is set
    replacing the old one. *)
Definition mergeStore (old data : MynahUIDataModel) : MynahUIDataModel :=
  {| chatItems := Js.nullish (chatItems data) (chatItems old);
     loadingChat := Js.nullish (loadingChat data) (loadingChat old);
     promptInputDisabledState :=
       Js.nullish (promptInputDisabledState data) (promptInputDisabledState old);
     contextCommands := Js.nullish (contextCommands data) (contextCommands old) |}.

Definition mergeFields (old upd : ChatItemFields) : ChatItemFields :=
  {| body := Js.nullish (body upd) (body old);
     header := Js.nullish (header upd) (header old);
     messageId := Js.nullish (messageId upd) (messageId old);
     followUp := Js.nullish (followUp upd) (followUp old);
     relatedContent := Js.nullish (relatedContent upd) (relatedContent old);
     canBeVoted := Js.nullish (canBeVoted upd) (canBeVoted old);
     contextList := Js.nullish (contextList upd) (contextList old);
     other := if other upd is [] then other old else other upd |}.

Definition generateUID (n : nat) : string := "tab-" +:+ pretty n.

Definition itemsOf (st : MynahUIDataModel) : list ChatItem :=
  Js.nullish_or (chatItems st) [].

Definition setItems (st : MynahUIDataModel) (l : list ChatItem) : MynahUIDataModel :=
  {| chatItems := Some l; loadingChat := loadingChat st;
     promptInputDisabledState := promptInputDisabledState st;
     contextCommands := contextCommands st |}.

(** Rewrite the last element of a list, if there is one. *)
Fixpoint mapLast {A} (f : A → A) (l : list A) : list A :=
  match l with
  | [] => []
  | [x] => [f x]
  | x :: rest => x :: mapLast f rest
  end.

Definition endStream (it : ChatItem) : ChatItem :=
  match ci_type it with
  | ANSWER_STREAM => {| ci_type := ANSWER; ci_fields := ci_fields it |}
  | _ => it
  end.

Definition updateFields (upd : ChatItemFields) (it : ChatItem) : ChatItem :=
  {| ci_type := ci_type it; ci_fields := mergeFields (ci_fields it) upd |}.

Definition alterTab (f : MynahUIDataModel → MynahUIDataModel)
    (tabId : string) (u : MynahUI) : MynahUI :=
  {| tabs := alter f tabId (tabs u);
     selectedTabId := selectedTabId u;
     uidCounter := uidCounter u;
     defaults := defaults u |}.

(** Modelled from the spec: the toolkit's [updateStore], which is not
    part of these sources.  With the empty tab id it creates a tab,
    which fails once [maxTabs] tabs are live (section 4.1: creation
    fails with NoCapacity once the live-tab cap is reached); a new tab
    starts from the configured defaults and becomes the selected one.
    With another id it merges [data] into that tab's store and does
    nothing for an unknown tab. *)
Definition ui_updateStore
    (tabId : string) (data : MynahUIDataModel) (u : MynahUI)
    : option string * MynahUI :=
  if String.eqb tabId "" then
    if decide (size (tabs u) < maxTabs) then
      let new := generateUID (uidCounter u) in
      (Some new,
       {| tabs := <[new := mergeStore (defaults u) data]> (tabs u);
          selectedTabId := Some new;
          uidCounter := S (uidCounter u);
          defaults := defaults u |})
    else (None, u)
  else (Some tabId, alterTab (λ st, mergeStore st data) tabId u).

(** Modelled from the spec: the toolkit's [addChatItem], which appends
    to the tab's item sequence. *)
Definition ui_addChatItem (tabId : string) (it : ChatItem) (u : MynahUI) : MynahUI :=
  alterTab (λ st, setItems st (itemsOf st ++ [it])) tabId u.

(** Modelled from the spec: the toolkit's [updateLastChatAnswer]
    (section 4.3: rewrites the content fields of the tab's last item in
    place, addressed by position). *)
Definition ui_updateLastChatAnswer (tabId : string) (upd : ChatItemFields)
    (u : MynahUI) : MynahUI :=
  alterTab (λ st, match chatItems st with
                  | Some l => setItems st (mapLast (updateFields upd) l)
                  | None => st
                  end) tabId u.

(** Modelled from the spec: the toolkit's [endMessageStream], the
    end-of-stream signal: the streaming item the tab ends with becomes a
    terminal answer. *)
Definition ui_endMessageStream (tabId : string) (u : MynahUI) : MynahUI :=
  alterTab (λ st, match chatItems st with
                  | Some l => setItems st (mapLast endStream l)
                  | None => st
                  end) tabId u.

(** *** The controller's state and its effects

    [disclaimerCardActive] and [contextCommandGroups] are the two
    variables the closures of [createMynahUi] share. *)
Record World := {
  ui : MynahUI;
  uiCalls : list UiCall;
  outbox : list Outbound;
  disclaimerCardActive : bool;
  contextCommandGroups : option (list QuickActionCommandGroup);
}.

Definition M (A : Type) : Type := World → A * World.

Definition ret {A} (a : A) : M A := λ w, (a, w).
Definition bind {A B} (c : M A) (k : A → M B) : M B :=
  λ w, let '(a, w') := c w in k a w'.

Notation "'let*' x ':=' c 'in' k" := (bind c (λ x, k))
  (at level 10, x pattern, c at level 100, k at level 200).
Notation "c ';;' k" := (bind c (λ _, k))
  (at level 100, k at level 200, right associativity).

Definition withUi (f : MynahUI → MynahUI) (c : UiCall) : M unit :=
  λ w, (tt, {| ui := f (ui w); uiCalls := uiCalls w ++ [c]; outbox := outbox w;
               disclaimerCardActive := disclaimerCardActive w;
               contextCommandGroups := contextCommandGroups w |}).

Definition send (m : Outbound) : M unit :=
  λ w, (tt, {| ui := ui w; uiCalls := uiCalls w; outbox := outbox w ++ [m];
               disclaimerCardActive := disclaimerCardActive w;
               contextCommandGroups := contextCommandGroups w |}).

Definition updateStore (tabId : string) (data : MynahUIDataModel) : M (option string) :=
  λ w, let r := ui_updateStore tabId data (ui w) in
       (r.1, {| ui := r.2; uiCalls := uiCalls w ++ [UpdateStore tabId data];
                outbox := outbox w;
                disclaimerCardActive := disclaimerCardActive w;
                contextCommandGroups := contextCommandGroups w |}).

Definition addChatItem (tabId : string) (it : ChatItem) : M unit :=
  withUi (ui_addChatItem tabId it) (AddChatItem tabId it).

Definition updateLastChatAnswer (tabId : string) (upd : ChatItemFields) : M unit :=
  withUi (ui_updateLastChatAnswer tabId upd) (UpdateLastChatAnswer tabId upd).

Definition endMessageStream (tabId msgId : string) : M unit :=
  withUi (ui_endMessageStream tabId) (EndMessageStream tabId msgId).

Definition notify (content : string) (type : NotificationType) : M unit :=
  withUi (λ u, u) (Notify content type).

Definition getSelectedTabId : M (option string) :=
  λ w, (selectedTabId (ui w), w).

Definition getAllTabs : M (gmap string MynahUIDataModel) :=
  λ w, (tabs (ui w), w).

(** *** [handleChatPrompt] *)

Definition handleChatPrompt (tabId : string) (prompt' : ChatPrompt)
    (triggerType : option string) : M unit :=
  let userPrompt := escapedPrompt prompt' in
  let* r :=
    (if Js.truthy_string (command prompt') then
       let cmd := Js.nullish_or (command prompt') "" in
       let* userPrompt :=
         (if String.eqb cmd "/clear" then
            updateStore tabId
              {| chatItems := Some []; loadingChat := None;
                 promptInputDisabledState := None; contextCommands := None |} ;;
            ret userPrompt
          else if String.eqb cmd "/help" then ret (Some DEFAULT_HELP_PROMPT)
          else ret userPrompt) in
       send (OnQuickActionCommand cmd userPrompt tabId) ;;
       ret (userPrompt, String.eqb cmd "/clear")
     else
       send (OnChatPrompt prompt' tabId triggerType) ;;
       ret (userPrompt, false)) in
  let userPrompt := r.1 in
  let returned := r.2 in
  if returned : bool then ret tt
  else
    addChatItem tabId
      {| ci_type := PROMPT;
         ci_fields := {| body := userPrompt; header := None; messageId := None;
                         followUp := None; relatedContent := None;
                         canBeVoted := None; contextList := None;
                         other := [] |} |} ;;
    updateStore tabId
      {| chatItems := None; loadingChat := Some true;
         promptInputDisabledState := Some true; contextCommands := None |} ;;
    addChatItem tabId {| ci_type := ANSWER_STREAM; ci_fields := noFields |}.

(** *** The closures of [createMynahUi] *)

Section CreateMynahUi.

(** Imported helpers whose sources are elsewhere: the recognizer of
    authentication follow-up types, the icon translation, and the tab
    factory's [createTab]. *)
Variable isValidAuthFollowUpType : string → bool.
Variable toMynahIcon : option string → option string.
Variable createTab : bool → bool → option (list ChatResult) → MynahUIDataModel.

(** The state [createMynahUi] starts from: the UI object built from
    [mynahUiProps] has the initial tab, selected, and the default store;
    the disclaimer card is active unless it was acknowledged. *)
Definition createMynahUi (initialTabId : string) (disclaimerAcknowledged : bool)
    : World :=
  let disclaimerCardActive' := negb disclaimerAcknowledged in
  {| ui := {| tabs := {[ initialTabId := createTab true disclaimerCardActive' None ]};
              selectedTabId := Some initialTabId;
              uidCounter := 0;
              defaults := createTab true false None |};
     uiCalls := [];
     outbox := [];
     disclaimerCardActive := disclaimerCardActive';
     contextCommandGroups := None |}.

(** [createTabId(needWelcomeMessages = false, chatMessages?)]. *)
Definition createTabId (needWelcomeMessages : bool)
    (chatMessages : option (list ChatResult)) : M (option string) :=
  let* active := (λ w, (disclaimerCardActive w, w)) in
  let* tabId := updateStore "" (createTab needWelcomeMessages active chatMessages) in
  match tabId with
  | None =>
      notify noMoreTabsTooltip WARNING ;;
      ret None
  | Some t => ret (Some t)
  end.

(** [getOrCreateTabId]: [tabId ?? createTabId()]. *)
Definition getOrCreateTabId : M (option string) :=
  let* tabId := getSelectedTabId in
  match tabId with
  | Some t => ret (Some t)
  | None => createTabId false None
  end.

(** The label of one line range, lines 420 to 422. *)
Definition rangeLabel (range : LineRange) : string :=
  if (first range =? -1)%Z || (second range =? -1)%Z
  then ""
  else "line " +:+ pretty (first range) +:+ " - " +:+ pretty (second range).

(** [fileDetails.lineRanges?.map(...).join(', ') || '']. *)
Definition detailsLabel (fileDetails : FileDetails) : string :=
  match lineRanges fileDetails with
  | Some ranges => Js.or_string (Js.join ", " (map rangeLabel ranges)) ""
  | None => ""
  end.

(** The [header] computed at the start of [addChatResponse]. *)
Definition contextHeader (chatResult : ChatResult) : option Header :=
  match cr_contextList chatResult with
  | None => None
  | Some cl =>
      Some {| fileList := {|
        fileTreeTitle := "";
        hd_filePaths := option_map (map (λ file, file)) (filePaths cl);
        rootFolderTitle := "Context";
        flatList := true;
        collapsed := true;
        hideFileCount := true;
        hd_details :=
          map (λ e : string * FileDetails,
                 (e.1, {| label := detailsLabel e.2;
                          description := e.1;
                          clickable := true |}))
              (Js.nullish_or (details cl) []);
      |} |}
  end.

(** [const { type, ...chatResultWithoutType } = chatResult]. *)
Definition chatResultWithoutType (chatResult : ChatResult) : ChatItemFields :=
  {| body := cr_body chatResult; header := None;
     messageId := cr_messageId chatResult;
     followUp := cr_followUp chatResult;
     relatedContent := cr_relatedContent chatResult;
     canBeVoted := cr_canBeVoted chatResult;
     contextList := cr_contextList chatResult;
     other := cr_other chatResult |}.

Definition withHeader (f : ChatItemFields) (h : option Header) : ChatItemFields :=
  {| body := body f; header := h; messageId := messageId f;
     followUp := followUp f; relatedContent := relatedContent f;
     canBeVoted := canBeVoted f; contextList := contextList f;
     other := other f |}.

(** [followUpOptions && followUpOptions.length > 0 &&
    followUpOptions[0].type && isValidAuthFollowUpType(followUpOptions[0].type)]. *)
Definition isValidAuthFollowUp (chatResult : ChatResult) : bool :=
  match cr_followUp chatResult with
  | Some fu =>
      match fu_options fu with
      | Some (o :: _) =>
          match act_type o with
          | Some t => negb (String.eqb t "") && isValidAuthFollowUpType t
          | None => false
          end
      | _ => false
      end
  | None => false
  end.

Definition bodyIsEmptyString (chatResult : ChatResult) : bool :=
  match cr_body chatResult with
  | Some b => String.eqb b ""
  | None => false
  end.

(** [addChatResponse(chatResult, tabId, isPartialResult)]. *)
Definition addChatResponse (chatResult : ChatResult) (tabId : string)
    (isPartialResult : bool) : M unit :=
  let header' := contextHeader chatResult in
  if isPartialResult then
    updateLastChatAnswer tabId (withHeader (chatResultWithoutType chatResult) header')
  else if Nat.eqb (objectKeysLength chatResult) 0 then
    ret tt
  else if bodyIsEmptyString chatResult && isValidAuthFollowUp chatResult then
    addChatItem tabId
      {| ci_type := SYSTEM_PROMPT;
         ci_fields := chatResultWithoutType chatResult |}
  else
    let followUps :=
      match cr_followUp chatResult with
      | Some fu =>
          {| fu_text :=
               Some (Js.nullish_or (fu_text fu) "Suggested follow up questions:");
             fu_options := fu_options fu |}
      | None => {| fu_text := None; fu_options := None |}
      end in
    updateLastChatAnswer tabId
      {| header := header';
         body := cr_body chatResult;
         messageId := cr_messageId chatResult;
         followUp := Some followUps;
         relatedContent := cr_relatedContent chatResult;
         canBeVoted := cr_canBeVoted chatResult;
         contextList := None; other := [] |} ;;
    endMessageStream tabId (Js.nullish_or (cr_messageId chatResult) "") ;;
    updateStore tabId
      {| chatItems := None; loadingChat := Some false;
         promptInputDisabledState := Some false; contextCommands := None |} ;;
    ret tt.

Definition newline : string := String (Ascii.ascii_of_nat 10) EmptyString.



(** [toContextCommands]: one command is rebuilt with its icon
    translated and each child group's commands translated in turn. *)
Fixpoint toContextCommand (command : ContextCommand) : QuickActionCommand :=
  match command with
  | mkContextCommand c d p icon id route lbl children =>
      mkQuickActionCommand c d p (toMynahIcon icon) id route lbl
        (option_map (map toContextCommandChild) children)
  end
with toContextCommandChild (child : ContextCommandGroup) : QuickActionCommandGroup :=
  match child with
  | mkContextCommandGroup n commands =>
      mkQuickActionCommandGroup n (map toContextCommand commands)
  end.

Definition toContextCommands (commands : list ContextCommand)
    : list QuickActionCommand :=
  map toContextCommand commands.

Fixpoint forEach {A} (l : list A) (f : A → M unit) : M unit :=
  match l with
  | [] => ret tt
  | x :: rest => f x ;; forEach rest f
  end.

Definition setContextCommandGroups (g : list QuickActionCommandGroup) : M unit :=
  λ w, (tt, {| ui := ui w; uiCalls := uiCalls w; outbox := outbox w;
               disclaimerCardActive := disclaimerCardActive w;
               contextCommandGroups := Some g |}).

(** [sendContextCommands(params)]; the tabs are visited in the order
    the table enumerates its keys. *)
Definition sendContextCommands (groups : list ContextCommandGroup) : M unit :=
  setContextCommandGroups
    (map (λ group,
            match group with
            | mkContextCommandGroup n commands =>
                mkQuickActionCommandGroup n (toContextCommands commands)
            end) groups) ;;
  let* allTabs := getAllTabs in
  forEach (map fst (map_to_list allTabs))
    (λ tabId,
       let* current := (λ w, (contextCommandGroups w, w)) in
       updateStore tabId
         {| chatItems := None; loadingChat := None;
            promptInputDisabledState := None;
            contextCommands := current |} ;;
       ret tt).

End CreateMynahUi.

(** *** Measures and relations used to state the properties *)

(** What is observable of one tab in a state of the controller. *)
Definition tabStore (w : World) (t : string) : option MynahUIDataModel :=
  tabs (ui w) !! t.

Definition tabItems (w : World) (t : string) : list ChatItem :=
  match tabStore w t with Some st => itemsOf st | None => [] end.

Definition tabLoading (w : World) (t : string) : option bool :=
  match tabStore w t with Some st => loadingChat st | None => None end.

Definition tabInputDisabled (w : World) (t : string) : option bool :=
  match tabStore w t with
  | Some st => promptInputDisabledState st
  | None => None
  end.

(** The number of streaming items in a sequence. *)
Definition streaming (l : list ChatItem) : nat :=
  length (filter (λ it, ci_type it = ANSWER_STREAM) l).

Definition flagsCleared : MynahUIDataModel :=
  {| chatItems := None; loadingChat := Some false;
     promptInputDisabledState := Some false; contextCommands := None |}.

Definition loadingSet : MynahUIDataModel :=
  {| chatItems := None; loadingChat := Some true;
     promptInputDisabledState := Some true; contextCommands := None |}.

Definition withBody (f : ChatItemFields) (b : option string) : ChatItemFields :=
  {| body := b; header := header f; messageId := messageId f;
     followUp := followUp f; relatedContent := relatedContent f;
     canBeVoted := canBeVoted f; contextList := contextList f;
     other := other f |}.

Definition itemsCleared : MynahUIDataModel :=
  {| chatItems := Some []; loadingChat := None;
     promptInputDisabledState := None; contextCommands := None |}.

(** The number of command nodes of a backend tree and of a UI tree. *)
Fixpoint cc_nodes (c : ContextCommand) : nat :=
  match c with
  | mkContextCommand _ _ _ _ _ _ _ children =>
      S (match children with
         | Some gs => list_sum (map ccg_nodes gs)
         | None => 0
         end)
  end
with ccg_nodes (g : ContextCommandGroup) : nat :=
  match g with
  | mkContextCommandGroup _ cs => list_sum (map cc_nodes cs)
  end.

Fixpoint qa_nodes (c : QuickActionCommand) : nat :=
  match c with
  | mkQuickActionCommand _ _ _ _ _ _ _ children =>
      S (match children with
         | Some gs => list_sum (map qag_nodes gs)
         | None => 0
         end)
  end
with qag_nodes (g : QuickActionCommandGroup) : nat :=
  match g with
  | mkQuickActionCommandGroup _ cs => list_sum (map qa_nodes cs)
  end.

(** The nesting depth: a command without children has depth 1. *)
Fixpoint cc_depth (c : ContextCommand) : nat :=
  match c with
  | mkContextCommand _ _ _ _ _ _ _ children =>
      S (match children with
         | Some gs => list_max (map ccg_depth gs)
         | None => 0
         end)
  end
with ccg_depth (g : ContextCommandGroup) : nat :=
  match g with
  | mkContextCommandGroup _ cs => list_max (map cc_depth cs)
  end.

Fixpoint qa_depth (c : QuickActionCommand) : nat :=
  match c with
  | mkQuickActionCommand _ _ _ _ _ _ _ children =>
      S (match children with
         | Some gs => list_max (map qag_depth gs)
         | None => 0
         end)
  end
with qag_depth (g : QuickActionCommandGroup) : nat :=
  match g with
  | mkQuickActionCommandGroup _ cs => list_max (map qa_depth cs)
  end.

(** A UI command mirrors a backend command under an icon translation
    [f]: the trees have the same nesting, every member but the icon is
    equal, and the icon is the translation of the backend icon. *)
Inductive mirrors (f : option string → option string)
    : ContextCommand → QuickActionCommand → Prop :=
  | mirrors_leaf c d p icon id route lbl :
      mirrors f (mkContextCommand c d p icon id route lbl None)
                (mkQuickActionCommand c d p (f icon) id route lbl None)
  | mirrors_node c d p icon id route lbl gs gs' :
      Forall2 (mirrors_group f) gs gs' →
      mirrors f (mkContextCommand c d p icon id route lbl (Some gs))
                (mkQuickActionCommand c d p (f icon) id route lbl (Some gs'))
with mirrors_group (f : option string → option string)
    : ContextCommandGroup → QuickActionCommandGroup → Prop :=
  | mirrors_grp n cs cs' :
      Forall2 (mirrors f) cs cs' →
      mirrors_group f (mkContextCommandGroup n cs) (mkQuickActionCommandGroup n cs').

(** Structural induction on command trees, through the lists of groups
    and of commands. *)
Section CommandInduction.

Variable P : ContextCommand → Prop.
Variable Q : ContextCommandGroup → Prop.

Hypothesis P_leaf : ∀ c d p icon id route lbl,
  P (mkContextCommand c d p icon id route lbl None).
Hypothesis P_node : ∀ c d p icon id route lbl gs,
  Forall Q gs → P (mkContextCommand c d p icon id route lbl (Some gs)).
Hypothesis Q_group : ∀ n cs,
  Forall P cs → Q (mkContextCommandGroup n cs).

Fixpoint ContextCommand_tree_ind (c : ContextCommand) : P c :=
  match c with
  | mkContextCommand c d p icon id route lbl None =>
      P_leaf c d p icon id route lbl
  | mkContextCommand c d p icon id route lbl (Some gs) =>
      P_node c d p icon id route lbl gs
        ((fix groups (l : list ContextCommandGroup) : Forall Q l :=
            match l with
            | [] => List.Forall_nil Q
            | g :: l' =>
                @List.Forall_cons _ Q g l' (ContextCommandGroup_tree_ind g) (groups l')
            end) gs)
  end
with ContextCommandGroup_tree_ind (g : ContextCommandGroup) : Q g :=
  match g with
  | mkContextCommandGroup n cs =>
      Q_group n cs
        ((fix commands (l : list ContextCommand) : Forall P l :=
            match l with
            | [] => List.Forall_nil P
            | c :: l' =>
                @List.Forall_cons _ P c l' (ContextCommand_tree_ind c) (commands l')
            end) cs)
  end.

End CommandInduction.

End MynahUi.

(** ** Concrete instances used to run the definitions *)

Module Samples.
Import MynahUi.

Definition isValidAuthFollowUpType (t : string) : bool :=
  bool_decide (t ∈ ["full-auth"; "re-auth"; "missing_scopes"; "use-supported-auth"]).

Definition toMynahIcon (icon : option string) : option string :=
  match icon with
  | Some i => if bool_decide (i ∈ ["file"; "folder"; "code-block"; "magic"])
              then Some i else None
  | None => None
  end.

Definition createTab (needWelcomeMessages disclaimerCardActive : bool)
    (chatMessages : option (list ChatResult)) : MynahUIDataModel :=
  {| chatItems :=
       Some (if needWelcomeMessages
             then [ {| ci_type := ANSWER;
                       ci_fields := {| body := Some "Hi, I am Amazon Q.";
                                       header := None; messageId := None;
                                       followUp := None; relatedContent := None;
                                       canBeVoted := None; contextList := None;
                                       other := [] |} |} ]
             else []);
     loadingChat := None;
     promptInputDisabledState := None;
     contextCommands := None |}.

Definition promptItem (b : string) : ChatItem :=
  {| ci_type := PROMPT;
     ci_fields := {| body := Some b; header := None; messageId := None;
                     followUp := None; relatedContent := None;
                     canBeVoted := None; contextList := None;
                     other := [] |} |}.

Definition streamItem : ChatItem :=
  {| ci_type := ANSWER_STREAM; ci_fields := noFields |}.

(** A tab in the middle of a turn: a prompt, an open stream, loading. *)
Definition busyTab : MynahUIDataModel :=
  {| chatItems := Some [promptItem "why?"; streamItem];
     loadingChat := Some true;
     promptInputDisabledState := Some true;
     contextCommands := None |}.

Definition idleTab : MynahUIDataModel :=
  {| chatItems := Some []; loadingChat := Some false;
     promptInputDisabledState := Some false; contextCommands := None |}.

Definition worldOf (ts : list (string * MynahUIDataModel))
    (sel : option string) : World :=
  {| ui := {| tabs := list_to_map ts; selectedTabId := sel;
              uidCounter := 0; defaults := createTab true false None |};
     uiCalls := []; outbox := [];
     disclaimerCardActive := false; contextCommandGroups := None |}.

(** One busy tab, selected. *)
Definition oneTab : World := worldOf [("t1", busyTab)] (Some "t1").

(** Two tabs: the busy one and a selected idle one. *)
Definition twoTabs : World :=
  worldOf [("t1", busyTab); ("t2", idleTab)] (Some "t2").

(** Ten tabs, none selected. *)
Definition fullTabs : World :=
  worldOf [("t0", idleTab); ("t1", busyTab); ("t2", idleTab); ("t3", idleTab);
           ("t4", idleTab); ("t5", idleTab); ("t6", idleTab); ("t7", idleTab);
           ("t8", idleTab); ("t9", idleTab)] None.

(** [n] calls of [createTabId] in a row, with their results. *)
Fixpoint createTabs (n : nat) : M (list (option string)) :=
  match n with
  | 0 => ret []
  | S n' =>
      let* r := createTabId createTab false None in
      let* rs := createTabs n' in
      ret (r :: rs)
  end.

Definition authResult : ChatResult :=
  {| cr_type := None; cr_body := Some ""; cr_messageId := Some "m1";
     cr_canBeVoted := None; cr_relatedContent := None;
     cr_followUp :=
       Some {| fu_text := None;
               fu_options := Some [ {| pillText := "Authenticate";
                                       act_prompt := None;
                                       act_type := Some "full-auth" |} ] |};
     cr_contextList := None; cr_other := [] |}.

Definition answerResult : ChatResult :=
  {| cr_type := Some "answer"; cr_body := Some "Because."; cr_messageId := Some "m1";
     cr_canBeVoted := Some true; cr_relatedContent := None;
     cr_followUp := None; cr_contextList := None; cr_other := [] |}.


Definition leaf (name : string) (icon : option string) : ContextCommand :=
  mkContextCommand name None None icon None None None None.

(** A tree of three levels and five commands. *)
Definition sampleTree : list ContextCommand :=
  [ mkContextCommand "Files" (Some "Add files") None (Some "file") None None None
      (Some [ mkContextCommandGroup (Some "Recent")
                [ mkContextCommand "src" None None (Some "folder") (Some "id-src")
                    (Some ["src"]) (Some "folder")
                    (Some [ mkContextCommandGroup None
                              [ leaf "a.ts" (Some "file");
                                leaf "b.ts" (Some "unknown-icon") ] ]);
                  leaf "README" None ] ]) ].

End Samples.

(** ** The trigger context of a request ([getNewTriggerContext]) *)

Module TriggerContextBuilder.
Import Trigger.

(** What the document context extractor returns; the trigger context
    takes these members over with a spread. *)
Record DocumentContext := {
  dc_cursorState : CursorState;
  dc_text : string;
  dc_programmingLanguage : string;
  dc_relativeFilePath : string;
}.

(** The members of [ChatParams | InlineChatParams] that are read:
    the prompt, the cursor states and the uri of the text document
    identifier. *)
Record ChatParams := {
  cp_prompt : ChatPrompt;
  cp_cursorState : option (list CursorState);
  cp_textDocument : option string;
}.

Section Builder.

(** The workspace lookup and the extractor are services of the server;
    a lookup that finds nothing returns [undefined]. *)
Context {TextDocument : Type}.
Variable getTextDocument : string → option TextDocument.
Variable documentContextExtractor : TextDocument → CursorState → DocumentContext.

(** [cursorState?.[0] ?? DEFAULT_CURSOR_STATE]. *)
Definition firstCursorState (cursorState' : option (list CursorState)) : CursorState :=
  match cursorState' with
  | Some (c :: _) => c
  | _ => DEFAULT_CURSOR_STATE
  end.

(** [extractDocumentContext(input)]: the lookup is made only for a
    truthy uri. *)
Definition extractDocumentContext (input : ChatParams) : option DocumentContext :=
  let textDocument :=
    if Js.truthy_string (cp_textDocument input)
    then getTextDocument (Js.nullish_or (cp_textDocument input) "")
    else None in
  match textDocument with
  | Some doc =>
      Some (documentContextExtractor doc (firstCursorState (cp_cursorState input)))
  | None => None
  end.

(** [getNewTriggerContext(params)]:
    [{ ...documentContext, userIntent: guess(params.prompt.prompt) }]. *)
Definition getNewTriggerContext (params : ChatParams) : TriggerContext :=
  let documentContext := extractDocumentContext params in
  {| cursorState := option_map dc_cursorState documentContext;
     text := option_map dc_text documentContext;
     programmingLanguage := option_map dc_programmingLanguage documentContext;
     relativeFilePath := option_map dc_relativeFilePath documentContext;
     userIntent := guessIntentFromPrompt (prompt (cp_prompt params)) |}.

End Builder.

End TriggerContextBuilder.

(** ** The other entry points of the chat UI controller *)

Module Controller.
Import MynahUi.

Record GenericCommandParams := {
  gc_genericCommand : string;
  gc_selection : string;
  gc_triggerType : string;
}.

Record SendToPromptParams := {
  sp_selection : string;
  sp_triggerType : string;
}.

(** [OpenTabParams]: the tab id and, from
    [newTabOptions?.data?.messages], the messages of a new tab. *)
Record OpenTabParams := {
  ot_tabId : option string;
  ot_messages : option (list ChatResult);
}.

(** The answer handed to [messager.onOpenTab]. *)
Inductive OpenTabResult :=
  | OpenTabOk (tabId : string)
  | OpenTabError (type message : string).

(** Calls on the UI object and on the messager that are made by the
    entry points below, in the order they are made.  They are kept
    beside the calls and messages of [World]. *)
Inductive Effect :=
  | SelectTab (tabId : string)
  | AddToUserPrompt (tabId selection kind : string)
  | OnSendToPrompt (params : SendToPromptParams) (tabId : string)
  | OnOpenTab (requestId : string) (result : OpenTabResult)
  | OnAuthFollowUpClicked (tabId messageId authFollowupType : string)
  | OnFollowUpClicked (tabId messageId : string) (followUp : ChatItemAction).

Record Session := {
  world : World;
  effects : list Effect;
}.

Definition SM (A : Type) : Type := Session → A * Session.

Definition sret {A} (a : A) : SM A := λ s, (a, s).
Definition sbind {A B} (c : SM A) (k : A → SM B) : SM B :=
  λ s, let r := c s in k r.1 r.2.

Notation "'do*' x ':=' c 'in' k" := (sbind c (λ x, k))
  (at level 10, x name, c at level 100, k at level 200).
Notation "c ';;;' k" := (sbind c (λ _, k))
  (at level 100, k at level 200, right associativity).

(** A computation on the controller's state, run inside a session. *)
Definition lift {A} (c : M A) : SM A :=
  λ s, let r := c (world s) in
       (r.1, {| world := r.2; effects := effects s |}).

Definition effect (e : Effect) : SM unit :=
  λ s, (tt, {| world := world s; effects := effects s ++ [e] |}).

(** Modelled from the spec: the toolkit's [selectTab], which makes an
    existing tab the selected one (section 3: exactly one tab is
    selected at a time, or none). *)
Definition ui_selectTab (tabId : string) (u : MynahUI) : MynahUI :=
  match tabs u !! tabId with
  | Some _ => {| tabs := tabs u; selectedTabId := Some tabId;
                 uidCounter := uidCounter u; defaults := defaults u |}
  | None => u
  end.

Definition selectTab (tabId : string) : SM unit :=
  (λ s, (tt, {| world := {| ui := ui_selectTab tabId (ui (world s));
                            uiCalls := uiCalls (world s);
                            outbox := outbox (world s);
                            disclaimerCardActive := disclaimerCardActive (world s);
                            contextCommandGroups := contextCommandGroups (world s) |};
                effects := effects s ++ [SelectTab tabId] |})).

Section Closures.

Variable isValidAuthFollowUpType : string → bool.
Variable createTab : bool → bool → option (list ChatResult) → MynahUIDataModel.

(** [getTabStore(tabId = mynahUi.getSelectedTabId())]:
    [tabId ? mynahUi.getAllTabs()[tabId]?.store : undefined]. *)
Definition getTabStore (tabId : option string) : M (option MynahUIDataModel) :=
  let* tabId := (match tabId with
                 | Some t => ret (Some t)
                 | None => getSelectedTabId
                 end) in
  if Js.truthy_string tabId then
    let* allTabs := getAllTabs in
    ret (allTabs !! Js.nullish_or tabId "")
  else ret None.

(** Truthiness of [getTabStore(tabId)?.loadingChat]. *)
Definition isLoading (store : option MynahUIDataModel) : bool :=
  match store with
  | Some st => match loadingChat st with Some b => b | None => false end
  | None => false
  end.

(** The prompt [sendGenericCommand] builds with [join('')]. *)
Definition genericCommandBody (params : GenericCommandParams) : string :=
  Js.join ""
    [ gc_genericCommand params;
      " the following part of my code:";
      newline +:+ "~~~~" +:+ newline;
      gc_selection params;
      newline +:+ "~~~~" +:+ newline ].

(** [sendGenericCommand(params)]. *)
Definition sendGenericCommand (params : GenericCommandParams) : M unit :=
  let continue (tabId : string) : M unit :=
    let body' := genericCommandBody params in
    handleChatPrompt tabId
      {| prompt := Some body'; escapedPrompt := Some body'; command := None |}
      (Some (gc_triggerType params)) in
  let* tabId := getOrCreateTabId createTab in
  if negb (Js.truthy_string tabId) then ret tt
  else
    let* store := getTabStore tabId in
    if isLoading store then
      let* tabId := createTabId createTab false None in
      if negb (Js.truthy_string tabId) then ret tt
      else continue (Js.nullish_or tabId "")
    else continue (Js.nullish_or tabId "").

(** [sendToPrompt(params)]. *)
Definition sendToPrompt (params : SendToPromptParams) : SM unit :=
  do* tabId := lift (getOrCreateTabId createTab) in
  if negb (Js.truthy_string tabId) then sret tt
  else
    let tabId := Js.nullish_or tabId "" in
    effect (AddToUserPrompt tabId (sp_selection params) "code") ;;;
    effect (OnSendToPrompt params tabId).

(** [openTab(requestId, params)]. *)
Definition openTab (requestId : string) (params : OpenTabParams) : SM unit :=
  if Js.truthy_string (ot_tabId params) then
    let tabId := Js.nullish_or (ot_tabId params) "" in
    do* selected := lift getSelectedTabId in
    (if bool_decide (Some tabId ≠ selected) then selectTab tabId else sret tt) ;;;
    effect (OnOpenTab requestId (OpenTabOk tabId))
  else
    let messages := ot_messages params in
    do* tabId := lift (createTabId createTab
                         (match messages with Some _ => false | None => true end)
                         messages) in
    if Js.truthy_string tabId then
      effect (OnOpenTab requestId (OpenTabOk (Js.nullish_or tabId "")))
    else
      effect (OnOpenTab requestId
                (OpenTabError "InvalidRequest" "No more tabs available")).

(** The [onFollowUpClicked] handler; the test on the type is
    [followUp.type !== undefined && isValidAuthFollowUpType(followUp.type)]. *)
Definition onFollowUpClicked (tabId messageId : string) (followUp' : ChatItemAction)
    : SM unit :=
  let isAuth := match act_type followUp' with
                | Some t => isValidAuthFollowUpType t
                | None => false
                end in
  if isAuth then
    effect (OnAuthFollowUpClicked tabId messageId
              (Js.nullish_or (act_type followUp') "")) ;;;
    lift (updateStore tabId
            {| chatItems := None; loadingChat := None;
               promptInputDisabledState := Some false;
               contextCommands := None |}) ;;;
    sret tt
  else
    let prompt' := if Js.truthy_string (act_prompt followUp')
                   then act_prompt followUp' else Some (pillText followUp') in
    lift (handleChatPrompt tabId
            {| prompt := prompt'; escapedPrompt := prompt'; command := None |}
            (Some "click")) ;;;
    effect (OnFollowUpClicked tabId messageId followUp').



Variable toMynahIcon : option string → option string.



End Closures.




(** One tab store after a broadcast of the groups [g]: only its
    context commands may differ, and they are [g] if they do. *)
Definition sameButCommands (g : list QuickActionCommandGroup)
    (st st' : MynahUIDataModel) : Prop :=
  chatItems st' = chatItems st
  ∧ loadingChat st' = loadingChat st
  ∧ promptInputDisabledState st' = promptInputDisabledState st
  ∧ (contextCommands st' = contextCommands st ∨ contextCommands st' = Some g).

End Controller.

(** ** Further concrete instances *)

Module MoreSamples.
Import MynahUi Controller.

(** A workspace with one document, and an extractor that returns the
    whole text at the cursor it is given. *)
Definition getTextDocument (uri : string) : option string :=
  if String.eqb uri "file:///src/a.ts" then Some "const x = 1" else None.

Definition documentContextExtractor (doc : string) (c : Trigger.CursorState)
    : TriggerContextBuilder.DocumentContext :=
  {| TriggerContextBuilder.dc_cursorState := c;
     TriggerContextBuilder.dc_text := doc;
     TriggerContextBuilder.dc_programmingLanguage := "typescript";
     TriggerContextBuilder.dc_relativeFilePath := "src/a.ts" |}.


Definition sessionOf (w : World) : Session := {| world := w; effects := [] |}.

Definition freeText : ChatPrompt :=
  {| prompt := Some "why?"; escapedPrompt := Some "why?"; command := None |}.

Definition explainSelection : GenericCommandParams :=
  {| gc_genericCommand := "Explain"; gc_selection := "let x = 1";
     gc_triggerType := "contextMenu" |}.

Definition authOption : ChatItemAction :=
  {| pillText := "Authenticate"; act_prompt := None; act_type := Some "full-auth" |}.

(** One idle tab, selected. *)
Definition idleWorld : World := Samples.worldOf [("t1", Samples.idleTab)] (Some "t1").


End MoreSamples.

(** * Properties of the request context builder *)

Module TriggerFacts.
Import Trigger.

Lemma N_of_ascii_lt (c : Ascii.ascii) : (Ascii.N_of_ascii c < 256)%N.
Proof. apply Ascii.N_ascii_bounded. Qed.

Lemma N_of_ascii_inj (a b : Ascii.ascii) :
  Ascii.N_of_ascii a = Ascii.N_of_ascii b → a = b.
Proof.
  intros H. rewrite <- (Ascii.ascii_N_embedding a), <- (Ascii.ascii_N_embedding b).
  by rewrite H.
Qed.

(** A lower-case pattern letter matches exactly the characters whose
    lower-case form it is. *)
Lemma canonicalize_lower (p c : Ascii.ascii) :
  Js.is_lower p = true →
  Ascii.eqb (Js.canonicalize p) (Js.canonicalize c) = true ↔ Js.to_lower c = p.
Proof.
  intros Hp. rewrite Ascii.eqb_eq.
  unfold Js.canonicalize, Js.to_lower, Js.is_lower, Js.is_upper in *.
  rewrite Hp.
  pose proof (N_of_ascii_lt p) as Hpb. pose proof (N_of_ascii_lt c) as Hcb.
  apply andb_true_iff in Hp as [Hp1 Hp2].
  apply N.leb_le in Hp1, Hp2.
  destruct (97 <=? Ascii.N_of_ascii c)%N eqn:E1;
    destruct (Ascii.N_of_ascii c <=? 122)%N eqn:E2;
    destruct (65 <=? Ascii.N_of_ascii c)%N eqn:E3;
    destruct (Ascii.N_of_ascii c <=? 90)%N eqn:E4; simpl;
    rewrite ?N.leb_le, ?N.leb_gt in *; try lia;
    (split; intros H;
     [ apply (f_equal Ascii.N_of_ascii) in H;
       rewrite ?Ascii.N_ascii_embedding in H by lia;
       apply N_of_ascii_inj; rewrite ?Ascii.N_ascii_embedding by lia; lia
     | apply N_of_ascii_inj; subst p;
       rewrite ?Ascii.N_ascii_embedding in * by lia;
       rewrite ?Ascii.N_ascii_embedding by lia; lia ]).
Qed.

(** The anchored case-insensitive test decides the specification's
    prefix relation, for a keyword written in lower-case letters. *)
Lemma test_anchored_ci_spec (pat s : string) :
  Js.all_lower pat = true →
  Js.test_anchored_ci pat s = true ↔ ci_prefix pat s.
Proof.
  revert s. induction pat as [|p pat IH]; intros s Hl; simpl.
  - split; [|done]. intros _. by exists EmptyString, s.
  - simpl in Hl. apply andb_true_iff in Hl as [Hp Hl].
    destruct s as [|c s].
    + split; [done|]. intros ([|? ?] & rest & Heq & Hlow); by simplify_eq/=.
    + destruct (Ascii.eqb (Js.canonicalize p) (Js.canonicalize c)) eqn:E.
      * apply canonicalize_lower in E; [|done].
        rewrite (IH s Hl). split.
        -- intros (pre & rest & -> & Hlow).
           exists (String c pre), rest. simpl. by rewrite E, Hlow.
        -- intros ([|c' pre] & rest & Heq & Hlow); simpl in *; [by simplify_eq/=|].
           injection Heq as -> ->. injection Hlow as _ Hlow.
           by exists pre, rest.
      * split; [done|].
        intros ([|c' pre] & rest & Heq & Hlow); simpl in *; [by simplify_eq/=|].
        injection Heq as -> ->. injection Hlow as Hc _.
        apply (canonicalize_lower p c' Hp) in Hc. congruence.
Qed.

Lemma spec_intent_of_guess (p : string) :
  spec_intent p (guessIntentFromPrompt (Some p)).
Proof.
  unfold guessIntentFromPrompt.
  destruct (Js.test_anchored_ci "explain" p) eqn:E1.
  { apply SI_explain. by apply test_anchored_ci_spec. }
  assert (¬ ci_prefix "explain" p) as N1.
  { intros H. apply test_anchored_ci_spec in H; [congruence|done]. }
  destruct (Js.test_anchored_ci "refactor" p) eqn:E2.
  { apply SI_refactor; [done|]. by apply test_anchored_ci_spec. }
  assert (¬ ci_prefix "refactor" p) as N2.
  { intros H. apply test_anchored_ci_spec in H; [congruence|done]. }
  destruct (Js.test_anchored_ci "fix" p) eqn:E3.
  { apply SI_fix; [done..|]. by apply test_anchored_ci_spec. }
  assert (¬ ci_prefix "fix" p) as N3.
  { intros H. apply test_anchored_ci_spec in H; [congruence|done]. }
  destruct (Js.test_anchored_ci "optimize" p) eqn:E4.
  { apply SI_optimize; [done..|]. by apply test_anchored_ci_spec. }
  apply SI_none; [done..|].
  intros H. apply test_anchored_ci_spec in H; [congruence|done].
Qed.

Lemma spec_intent_functional (p : string) (r1 r2 : option UserIntent) :
  spec_intent p r1 → spec_intent p r2 → r1 = r2.
Proof. intros H1 H2. destruct H1; destruct H2; done. Qed.

(** C7. For every prompt, the guessed intent is the one the ordered
    list of case-insensitive prefix patterns explain, refactor, fix,
    optimize assigns: the first keyword that is a prefix of the prompt
    up to case decides, and no intent results when none is a prefix;
    in particular a keyword later in the text ("please explain")
    yields no intent, as does an absent prompt. *)
Theorem guessIntentFromPrompt_spec :
  (∀ p r, guessIntentFromPrompt (Some p) = r ↔ spec_intent p r)
  ∧ guessIntentFromPrompt (Some "please explain") = None
  ∧ guessIntentFromPrompt None = None.
Proof.
  split; [|done].
  intros p r. split.
  - intros <-. apply spec_intent_of_guess.
  - intros H. eapply spec_intent_functional; [apply spec_intent_of_guess|done].
Qed.

Example guess_explain :
  guessIntentFromPrompt (Some "Explain this function") = Some EXPLAIN_CODE_SELECTION.
Proof. reflexivity. Qed.

Example guess_refactor :
  guessIntentFromPrompt (Some "refactor it") = Some SUGGEST_ALTERNATE_IMPLEMENTATION.
Proof. reflexivity. Qed.

Example guess_fix :
  guessIntentFromPrompt (Some "FIX my loop") = Some APPLY_COMMON_BEST_PRACTICES.
Proof. reflexivity. Qed.

Example guess_optimize :
  guessIntentFromPrompt (Some "OptimiZe this") = Some IMPROVE_CODE.
Proof. reflexivity. Qed.

Example guess_hello : guessIntentFromPrompt (Some "hello") = None.
Proof. reflexivity. Qed.

(** *** The request payload *)

Section PayloadFacts.
Context {Tool ChatTriggerType : Type}.

Implicit Types (p : ChatPrompt) (tc : TriggerContext) (k : ChatTriggerType).
Implicit Types (tl : option (list Tool)).

Lemma payload_context_cases p tc k carn parn tl :
  userInputMessageContext (messageOf (getChatParamsFromTrigger p tc k carn parn tl))
  = match cursorState tc, relativeFilePath tc with
    | Some cs, Some path =>
        if decide (path = "") then
          {| editorState := None; tools := Js.nullish_or tl [] |}
        else
          {| editorState := Some {|
               es_cursorState := cs;
               es_document := {| doc_text := text tc;
                                 doc_programmingLanguage := programmingLanguage tc;
                                 doc_relativeFilePath := Some path |} |};
             tools := Js.nullish_or tl [] |}
    | _, _ => {| editorState := None; tools := Js.nullish_or tl [] |}
    end.
Proof.
  unfold messageOf, getChatParamsFromTrigger; simpl.
  destruct (cursorState tc) as [cs|]; [|by destruct (relativeFilePath tc)].
  destruct (relativeFilePath tc) as [path|]; simpl; [|done].
  destruct (decide (path = "")) as [->|Hne]; [done|].
  destruct (String.eqb path "") eqn:E; [|done].
  by apply String.eqb_eq in E.
Qed.

(** C8, as amended.  The payload always carries the prompt text, the
    escaped variant when supplied and the plain one otherwise, and the
    origin tag IDE; its tool list is the supplied one, or empty when
    none is supplied; it carries an editor-state block exactly when the
    trigger context has a cursor state and a relative file path that is
    not the empty string, and the block then holds the cursor state,
    the extracted text, the programming language and that path. *)
Theorem getChatParamsFromTrigger_payload p tc k carn parn tl :
  let m := messageOf (getChatParamsFromTrigger p tc k carn parn tl) in
  content m = match escapedPrompt p with Some e => Some e | None => prompt p end
  ∧ origin m = "IDE"
  ∧ tools (userInputMessageContext m) = match tl with Some l => l | None => [] end
  ∧ (is_Some (editorState (userInputMessageContext m))
     ↔ is_Some (cursorState tc)
       ∧ ∃ path, relativeFilePath tc = Some path ∧ path ≠ "")
  ∧ (∀ es, editorState (userInputMessageContext m) = Some es →
       cursorState tc = Some (es_cursorState es)
       ∧ doc_text (es_document es) = text tc
       ∧ doc_programmingLanguage (es_document es) = programmingLanguage tc
       ∧ doc_relativeFilePath (es_document es) = relativeFilePath tc).
Proof.
  intros m. subst m. rewrite payload_context_cases.
  split; [by unfold messageOf; simpl; destruct (escapedPrompt p)|].
  split; [done|].
  split.
  { destruct tl, (cursorState tc), (relativeFilePath tc); simpl;
      try case_decide; done. }
  destruct (cursorState tc) as [cs|], (relativeFilePath tc) as [path|]; simpl;
    try case_decide; simpl.
  all: split; [split|].
  all: try (intros [? ?]; done).
  all: try (intros es ?; simplify_eq; done).
  all: try (intros [[? ?] (? & ? & ?)]; simplify_eq; done).
  all: try (intros _; split; [done|]; eexists; done).
Qed.

End PayloadFacts.

(** C8, against the statement as written: a trigger context that has a
    cursor state and a relative file path, the path being the empty
    string, gets no editor-state block. *)
Lemma getChatParamsFromTrigger_empty_path :
  let tc := {| cursorState := Some DEFAULT_CURSOR_STATE;
               text := Some "const x = 1";
               programmingLanguage := Some "typescript";
               relativeFilePath := Some "";
               userIntent := None |} in
  let d := getChatParamsFromTrigger
             {| prompt := Some "hi"; escapedPrompt := None; command := None |}
             tc "MANUAL" None None (None : option (list string)) in
  ¬ (is_Some (editorState (userInputMessageContext (messageOf d)))
     ↔ is_Some (cursorState tc) ∧ is_Some (relativeFilePath tc)).
Proof.
  simpl. intros [_ H].
  destruct H as [? H]; [by split; eexists|]. discriminate H.
Qed.

End TriggerFacts.

(** * Properties of the chat UI controller *)

Module MynahUiFacts.
Import MynahUi.
Local Open Scope list_scope.

(** ** The toolkit's store *)

Lemma mapLast_snoc {A} (f : A → A) (l : list A) (x : A) :
  mapLast f (l ++ [x]) = l ++ [f x].
Proof.
  induction l as [|y l IH]; [done|].
  simpl. rewrite IH. by destruct l.
Qed.





Lemma itemsOf_rewrite (g : list ChatItem → list ChatItem) st :
  g [] = [] →
  itemsOf (match chatItems st with
           | Some l => setItems st (g l)
           | None => st
           end) = g (itemsOf st).
Proof.
  intros Hg. unfold itemsOf.
  destruct (chatItems st) as [l|] eqn:E; simpl; [done|].
  by rewrite E, Hg.
Qed.

(** The three observations of a tab after a rewrite of its items. *)
Lemma tab_after_rewrite (g : list ChatItem → list ChatItem) tabId c w t :
  g [] = [] →
  let w' := (withUi (alterTab (λ st, match chatItems st with
                                     | Some l => setItems st (g l)
                                     | None => st
                                     end) tabId) c w).2 in
  tabItems w' t = (if decide (tabId = t) then g (tabItems w t) else tabItems w t)
  ∧ tabLoading w' t = tabLoading w t
  ∧ tabInputDisabled w' t = tabInputDisabled w t.
Proof.
  intros Hg w'. subst w'.
  unfold tabItems, tabLoading, tabInputDisabled, tabStore, withUi; simpl.
  case_decide as Ht.
  - subst t. rewrite lookup_alter_eq.
    destruct (tabs (ui w) !! tabId) as [st|]; simpl; [|done].
    rewrite itemsOf_rewrite by done. by destruct (chatItems st).
  - by rewrite lookup_alter_ne.
Qed.

Lemma updateStore_existing tabId data w :
  tabId ≠ "" →
  updateStore tabId data w =
  (Some tabId,
   {| ui := alterTab (λ st, mergeStore st data) tabId (ui w);
      uiCalls := uiCalls w ++ [UpdateStore tabId data];
      outbox := outbox w;
      disclaimerCardActive := disclaimerCardActive w;
      contextCommandGroups := contextCommandGroups w |}).
Proof.
  intros Hne. unfold updateStore, ui_updateStore.
  destruct (String.eqb tabId "") eqn:E; [|done].
  by apply String.eqb_eq in E.
Qed.

Lemma updateStore_create data (w : World) :
  (size (tabs (ui w)) < maxTabs)%nat →
  updateStore "" data w =
  (Some (generateUID (uidCounter (ui w))),
   {| ui := {| tabs := <[generateUID (uidCounter (ui w))
                         := mergeStore (defaults (ui w)) data]> (tabs (ui w));
               selectedTabId := Some (generateUID (uidCounter (ui w)));
               uidCounter := S (uidCounter (ui w));
               defaults := defaults (ui w) |};
      uiCalls := uiCalls w ++ [UpdateStore "" data];
      outbox := outbox w;
      disclaimerCardActive := disclaimerCardActive w;
      contextCommandGroups := contextCommandGroups w |}).
Proof.
  intros H. unfold updateStore, ui_updateStore. simpl.
  by rewrite decide_True.
Qed.

Lemma updateStore_full data (w : World) :
  (maxTabs ≤ size (tabs (ui w)))%nat →
  updateStore "" data w =
  (None,
   {| ui := ui w;
      uiCalls := uiCalls w ++ [UpdateStore "" data];
      outbox := outbox w;
      disclaimerCardActive := disclaimerCardActive w;
      contextCommandGroups := contextCommandGroups w |}).
Proof.
  intros H. unfold updateStore, ui_updateStore. simpl.
  rewrite decide_False by lia. done.
Qed.

Lemma generateUID_nonempty n : generateUID n ≠ "".
Proof. unfold generateUID. simpl. discriminate. Qed.

Lemma tab_after_addChatItem tabId it w t :
  let w' := (addChatItem tabId it w).2 in
  tabItems w' t =
    (if decide (tabId = t ∧ is_Some (tabStore w t))
     then tabItems w t ++ [it] else tabItems w t)
  ∧ tabLoading w' t = tabLoading w t
  ∧ tabInputDisabled w' t = tabInputDisabled w t
  ∧ (is_Some (tabStore w' t) ↔ is_Some (tabStore w t)).
Proof.
  intros w'. subst w'.
  unfold tabItems, tabLoading, tabInputDisabled, tabStore, addChatItem, withUi; simpl.
  destruct (decide (tabId = t)) as [->|Hne].
  - rewrite lookup_alter_eq.
    destruct (tabs (ui w) !! t) as [st|]; simpl.
    + rewrite decide_True by (split; [done|by eexists]). done.
    + rewrite decide_False by (intros [_ [? ?]]; done). done.
  - rewrite lookup_alter_ne by done.
    rewrite decide_False by (intros [? _]; done). done.
Qed.

Lemma tab_after_flagsCleared tabId w t :
  tabId ≠ "" →
  let w' := (updateStore tabId flagsCleared w).2 in
  tabItems w' t = tabItems w t
  ∧ (tabId = t → is_Some (tabStore w t) →
     tabLoading w' t = Some false ∧ tabInputDisabled w' t = Some false)
  ∧ (tabId ≠ t →
     tabLoading w' t = tabLoading w t ∧ tabInputDisabled w' t = tabInputDisabled w t).
Proof.
  intros Hne w'. subst w'. rewrite updateStore_existing by done.
  unfold tabItems, tabLoading, tabInputDisabled, tabStore; simpl.
  destruct (decide (tabId = t)) as [->|Hd].
  - rewrite lookup_alter_eq.
    destruct (tabs (ui w) !! t) as [st|]; simpl.
    + split; [done|]. split; [done|]. by intros ?.
    + split; [done|]. split; [by intros _ [? ?]|]. by intros ?.
  - rewrite lookup_alter_ne by done. done.
Qed.

Lemma tab_after_updateLastChatAnswer tabId upd w t :
  let w' := (updateLastChatAnswer tabId upd w).2 in
  tabItems w' t = (if decide (tabId = t)
                   then mapLast (updateFields upd) (tabItems w t)
                   else tabItems w t)
  ∧ tabLoading w' t = tabLoading w t
  ∧ tabInputDisabled w' t = tabInputDisabled w t.
Proof.
  exact (tab_after_rewrite (mapLast (updateFields upd)) tabId
           (UpdateLastChatAnswer tabId upd) w t eq_refl).
Qed.

Lemma tab_after_endMessageStream tabId m w t :
  let w' := (endMessageStream tabId m w).2 in
  tabItems w' t = (if decide (tabId = t)
                   then mapLast endStream (tabItems w t)
                   else tabItems w t)
  ∧ tabLoading w' t = tabLoading w t
  ∧ tabInputDisabled w' t = tabInputDisabled w t.
Proof.
  exact (tab_after_rewrite (mapLast endStream) tabId
           (EndMessageStream tabId m) w t eq_refl).
Qed.

(** ** Line-range labels *)

Lemma or_string_empty s : Js.or_string s "" = s.
Proof. unfold Js.or_string. destruct (String.eqb s "") eqn:E; [|done].
  apply String.eqb_eq in E. by subst. Qed.

Lemma contextHeader_labels r cl :
  cr_contextList r = Some cl →
  ∃ h, contextHeader r = Some h
       ∧ map (λ e, (e.1, label e.2)) (hd_details (fileList h))
         = map (λ e : string * FileDetails,
                  (e.1, Js.join ", " (map rangeLabel
                                        (Js.nullish_or (lineRanges e.2) []))))
               (Js.nullish_or (details cl) []).
Proof.
  intros H. unfold contextHeader. rewrite H. eexists; split; [done|]. simpl.
  rewrite map_map. apply map_ext. intros [path fd]. simpl.
  unfold detailsLabel. destruct (lineRanges fd); [|done].
  by rewrite or_string_empty.
Qed.

(** C3, as amended.  The label of a range (A, B) with neither bound
    equal to -1 is "line A - B", the word "line" appearing once (so
    (3, 10) gives "line 3 - 10"), and a range with a bound equal to -1
    gives the empty string; the label of a file with exactly that range
    is the label of the range. *)
Theorem rangeLabel_spec (a b : Z) :
  (a ≠ (-1)%Z → b ≠ (-1)%Z →
     rangeLabel {| first := a; second := b |}
     = "line " +:+ pretty a +:+ " - " +:+ pretty b)
  ∧ (a = (-1)%Z ∨ b = (-1)%Z → rangeLabel {| first := a; second := b |} = "")
  ∧ detailsLabel {| fd_description := None;
                    lineRanges := Some [ {| first := a; second := b |} ] |}
    = rangeLabel {| first := a; second := b |}
  ∧ rangeLabel {| first := 3; second := 10 |} = "line 3 - 10"
  ∧ rangeLabel {| first := -1; second := 10 |} = "".
Proof.
  unfold rangeLabel; simpl. split; [|split; [|split]].
  - intros Ha Hb.
    destruct (Z.eqb_spec a (-1)); [done|].
    destruct (Z.eqb_spec b (-1)); [done|]. done.
  - intros [-> | ->]; [done|]. by rewrite orb_true_r.
  - unfold detailsLabel. simpl. apply or_string_empty.
  - split; by vm_compute.
Qed.

(** C3, against the statement as written: the range (3, 10) is not
    labelled "line 3 - line 10". *)
Lemma rangeLabel_not_repeated :
  rangeLabel {| first := 3; second := 10 |} ≠ "line 3 - line 10"
  ∧ detailsLabel {| fd_description := None;
                    lineRanges := Some [ {| first := 3; second := 10 |} ] |}
    = "line 3 - 10".
Proof. vm_compute. split; [discriminate|done]. Qed.

Lemma rangeLabel_spec_witness :
  rangeLabel {| first := 7; second := 42 |} = "line 7 - 42"
  ∧ rangeLabel {| first := 7; second := -1 |} = "".
Proof.
  destruct (rangeLabel_spec 7 42) as (H1 & _).
  destruct (rangeLabel_spec 7 (-1)) as (_ & H2 & _).
  split.
  - rewrite H1 by lia. reflexivity.
  - apply H2. right. reflexivity.
Defined.

(** ** Tab creation *)

Section Tabs.
Variable createTab : bool → bool → option (list ChatResult) → MynahUIDataModel.

Lemma createTabId_full_run needWelcomeMessages chatMessages (w : World) :
  (maxTabs ≤ size (tabs (ui w)))%nat →
  createTabId createTab needWelcomeMessages chatMessages w =
  (None,
   {| ui := ui w;
      uiCalls := uiCalls w ++
        [UpdateStore "" (createTab needWelcomeMessages (disclaimerCardActive w)
                           chatMessages);
         Notify noMoreTabsTooltip WARNING];
      outbox := outbox w;
      disclaimerCardActive := disclaimerCardActive w;
      contextCommandGroups := contextCommandGroups w |}).
Proof.
  intros H. unfold createTabId, bind. cbv beta iota.
  rewrite updateStore_full by done.
  unfold notify, withUi, ret. simpl. by rewrite <- app_assoc.
Qed.

(** C4.  With ten tabs live, the cap, [createTabId] returns no tab id:
    the store of the UI, and with it every existing tab, is unchanged;
    the one creation attempt is followed by the warning notice that no
    more tabs can be opened, and by nothing else (no second attempt, no
    message to the backend). *)
Theorem createTabId_at_cap
    (needWelcomeMessages : bool) (chatMessages : option (list ChatResult))
    (w : World) :
  (10 ≤ size (tabs (ui w)))%nat →
  createTabId createTab needWelcomeMessages chatMessages w =
  (None,
   {| ui := ui w;
      uiCalls := uiCalls w ++
        [UpdateStore "" (createTab needWelcomeMessages (disclaimerCardActive w)
                           chatMessages);
         Notify noMoreTabsTooltip WARNING];
      outbox := outbox w;
      disclaimerCardActive := disclaimerCardActive w;
      contextCommandGroups := contextCommandGroups w |}).
Proof. intros H. by apply createTabId_full_run. Qed.

(** Below the cap the creation succeeds and selects the new tab. *)
Lemma createTabId_below_cap needWelcomeMessages chatMessages (w : World) :
  (size (tabs (ui w)) < 10)%nat →
  let new := generateUID (uidCounter (ui w)) in
  let r := createTabId createTab needWelcomeMessages chatMessages w in
  r.1 = Some new
  ∧ selectedTabId (ui r.2) = Some new
  ∧ is_Some (tabStore r.2 new)
  ∧ (∀ t, t ≠ new → tabStore r.2 t = tabStore w t)
  ∧ uiCalls r.2 = uiCalls w ++
      [UpdateStore "" (createTab needWelcomeMessages (disclaimerCardActive w)
                         chatMessages)].
Proof.
  intros H new r. subst r. unfold createTabId, bind. cbv beta iota.
  rewrite updateStore_create by done. simpl.
  split; [done|]. split; [done|]. unfold tabStore; simpl.
  split; [rewrite lookup_insert_eq; by eexists|].
  split; [|done]. intros t Ht. by rewrite lookup_insert_ne.
Qed.

(** *** [showError] *)






End Tabs.

(** ** The context-command translator *)

Section Translator.
Variable toMynahIcon : option string → option string.

Lemma Forall2_map_mirror {A B} (R : A → B → Prop) (g : A → B) (l : list A) :
  Forall (λ x, R x (g x)) l → Forall2 R l (map g l).
Proof. induction 1; constructor; done. Qed.

Lemma list_sum_map_ext {A B} (m1 : A → nat) (m2 : B → nat) (g : A → B) l :
  Forall (λ x, m2 (g x) = m1 x) l →
  list_sum (map m2 (map g l)) = list_sum (map m1 l).
Proof. induction 1 as [|x l Hx _ IH]; [done|]. simpl. by rewrite Hx, IH. Qed.

Lemma list_max_map_ext {A B} (m1 : A → nat) (m2 : B → nat) (g : A → B) l :
  Forall (λ x, m2 (g x) = m1 x) l →
  list_max (map m2 (map g l)) = list_max (map m1 l).
Proof. induction 1 as [|x l Hx _ IH]; [done|]. simpl. by rewrite Hx, IH. Qed.

Lemma toContextCommand_mirrors (c : ContextCommand) :
  mirrors toMynahIcon c (toContextCommand toMynahIcon c).
Proof.
  induction c using ContextCommand_tree_ind with
    (Q := λ g, mirrors_group toMynahIcon g (toContextCommandChild toMynahIcon g));
    simpl.
  - constructor.
  - constructor. by apply Forall2_map_mirror.
  - constructor. by apply Forall2_map_mirror.
Qed.

Lemma toContextCommand_nodes (c : ContextCommand) :
  qa_nodes (toContextCommand toMynahIcon c) = cc_nodes c.
Proof.
  induction c using ContextCommand_tree_ind with
    (Q := λ g, qag_nodes (toContextCommandChild toMynahIcon g) = ccg_nodes g);
    simpl.
  - done.
  - f_equal. by apply list_sum_map_ext.
  - by apply list_sum_map_ext.
Qed.

Lemma toContextCommand_depth (c : ContextCommand) :
  qa_depth (toContextCommand toMynahIcon c) = cc_depth c.
Proof.
  induction c using ContextCommand_tree_ind with
    (Q := λ g, qag_depth (toContextCommandChild toMynahIcon g) = ccg_depth g);
    simpl.
  - done.
  - f_equal. by apply list_max_map_ext.
  - by apply list_max_map_ext.
Qed.

(** The recursion of the source: each command keeps its members, its
    children are rebuilt group by group with [toContextCommands] on
    their commands, and its icon goes through [toMynahIcon]. *)
Lemma toContextCommands_unfold (commands : list ContextCommand) :
  toContextCommands toMynahIcon commands =
  map (λ command,
         match command with
         | mkContextCommand c d p icon id route lbl children =>
             mkQuickActionCommand c d p (toMynahIcon icon) id route lbl
               (option_map
                  (map (λ child,
                          match child with
                          | mkContextCommandGroup n cs =>
                              mkQuickActionCommandGroup n
                                (toContextCommands toMynahIcon cs)
                          end))
                  children)
         end) commands.
Proof.
  unfold toContextCommands. apply map_ext. intros [c d p icon id route lbl children].
  simpl. f_equal. destruct children as [gs|]; [|done]. simpl. f_equal.
  apply map_ext. by intros [n cs].
Qed.

(** C9.  The translation of a list of command trees, of any depth,
    yields as many trees; each output tree mirrors its input tree:
    same nesting of groups and commands, every member but the icon
    equal, the icon translated by [toMynahIcon]; the number of command
    nodes and the nesting depth are those of the input.  The
    translation is a function of its argument: the input list is a
    value, and it is the same after the call as before. *)
Theorem toContextCommands_preserves (commands : list ContextCommand) :
  Forall2 (mirrors toMynahIcon) commands (toContextCommands toMynahIcon commands)
  ∧ length (toContextCommands toMynahIcon commands) = length commands
  ∧ list_sum (map qa_nodes (toContextCommands toMynahIcon commands))
    = list_sum (map cc_nodes commands)
  ∧ list_max (map qa_depth (toContextCommands toMynahIcon commands))
    = list_max (map cc_depth commands).
Proof.
  unfold toContextCommands. split; [|split; [|split]].
  - apply Forall2_map_mirror, Forall_forall. intros c _.
    apply toContextCommand_mirrors.
  - apply length_map.
  - apply list_sum_map_ext, Forall_forall. intros c _. apply toContextCommand_nodes.
  - apply list_max_map_ext, Forall_forall. intros c _. apply toContextCommand_depth.
Qed.

Lemma forEach_updateStore_groups (keys : list string) (w : World) :
  contextCommandGroups
    (forEach keys
       (λ tabId,
          let* current := (λ w, (contextCommandGroups w, w)) in
          updateStore tabId
            {| chatItems := None; loadingChat := None;
               promptInputDisabledState := None;
               contextCommands := current |} ;;
          ret tt) w).2
  = contextCommandGroups w.
Proof.
  revert w. induction keys as [|k keys IH]; intros w; [done|].
  simpl. unfold bind at 1. unfold bind at 1. cbv beta iota.
  unfold bind at 1. unfold ret at 1.
  destruct (updateStore k _ w) as [r w1] eqn:E. cbv beta iota.
  rewrite IH. unfold updateStore in E. by injection E as _ <-.
Qed.

(** The groups the controller keeps after [sendContextCommands] are the
    translated groups. *)
Lemma sendContextCommands_groups (groups : list ContextCommandGroup) (w : World) :
  contextCommandGroups (sendContextCommands toMynahIcon groups w).2
  = Some (map (toContextCommandChild toMynahIcon) groups).
Proof.
  unfold sendContextCommands, setContextCommandGroups, getAllTabs.
  unfold bind at 1. cbv beta iota. unfold bind at 1. cbv beta iota.
  rewrite forEach_updateStore_groups. simpl. f_equal.
  apply map_ext. by intros [n cs].
Qed.

End Translator.

(** A tree of three levels and five commands keeps its five commands
    and three levels; an icon the toolkit does not know is dropped. *)
Example toContextCommands_sampleTree :
  list_sum (map cc_nodes Samples.sampleTree) = 5
  ∧ list_max (map cc_depth Samples.sampleTree) = 3
  ∧ list_sum (map qa_nodes
                (toContextCommands Samples.toMynahIcon Samples.sampleTree)) = 5
  ∧ list_max (map qa_depth
                (toContextCommands Samples.toMynahIcon Samples.sampleTree)) = 3
  ∧ toContextCommands Samples.toMynahIcon
      [Samples.leaf "b.ts" (Some "unknown-icon"); Samples.leaf "a.ts" (Some "file")]
    = [mkQuickActionCommand "b.ts" None None None None None None None;
       mkQuickActionCommand "a.ts" None None (Some "file") None None None None].
Proof. by vm_compute. Qed.

(** ** The prompt-submit handler *)

Lemma handleChatPrompt_clear_run tabId p trig w :
  command p = Some "/clear" →
  handleChatPrompt tabId p trig w =
  (updateStore tabId itemsCleared ;;
   send (OnQuickActionCommand "/clear" (escapedPrompt p) tabId)) w.
Proof.
  intros Hc. unfold handleChatPrompt. rewrite Hc. simpl.
  unfold bind, ret. fold itemsCleared.
  by destruct (updateStore tabId itemsCleared w) as [? w1].
Qed.

Lemma handleChatPrompt_command_run tabId p trig w cmd :
  command p = Some cmd → cmd ≠ "" → cmd ≠ "/clear" →
  let userPrompt := if String.eqb cmd "/help"
                    then Some DEFAULT_HELP_PROMPT else escapedPrompt p in
  handleChatPrompt tabId p trig w =
  (send (OnQuickActionCommand cmd userPrompt tabId) ;;
   addChatItem tabId
     {| ci_type := PROMPT; ci_fields := withBody noFields userPrompt |} ;;
   updateStore tabId loadingSet ;;
   addChatItem tabId {| ci_type := ANSWER_STREAM; ci_fields := noFields |}) w.
Proof.
  intros Hc Hne Hcl userPrompt. subst userPrompt.
  unfold handleChatPrompt. rewrite Hc. simpl.
  destruct (String.eqb cmd "") eqn:E0; [by apply String.eqb_eq in E0|].
  destruct (String.eqb cmd "/clear") eqn:E1; [by apply String.eqb_eq in E1|].
  simpl. by destruct (String.eqb cmd "/help").
Qed.

(** C2, as amended.  A prompt that carries the quick-action command
    /clear empties the tab's item sequence, leaves its flags alone, adds
    no item, and sends exactly one quick-action message for /clear to
    the backend.  Any other quick-action command is sent to the backend
    too, with the help prompt as its text for /help and the escaped
    prompt otherwise, and the turn is opened in the UI: a prompt item,
    the loading state, an empty streaming item. *)
Theorem handleChatPrompt_quick_action
    (tabId : string) (p : ChatPrompt) (trig : option string) (w : World)
    (cmd : string) :
  command p = Some cmd → cmd ≠ "" →
  let w' := (handleChatPrompt tabId p trig w).2 in
  (cmd = "/clear" →
     outbox w' = outbox w ++ [OnQuickActionCommand "/clear" (escapedPrompt p) tabId]
     ∧ uiCalls w' = uiCalls w ++ [UpdateStore tabId itemsCleared]
     ∧ (tabId ≠ "" →
        tabItems w' tabId = []
        ∧ (is_Some (tabStore w' tabId) ↔ is_Some (tabStore w tabId))
        ∧ tabLoading w' tabId = tabLoading w tabId
        ∧ tabInputDisabled w' tabId = tabInputDisabled w tabId))
  ∧ (cmd ≠ "/clear" →
     let userPrompt := if String.eqb cmd "/help"
                       then Some DEFAULT_HELP_PROMPT else escapedPrompt p in
     outbox w' = outbox w ++ [OnQuickActionCommand cmd userPrompt tabId]
     ∧ uiCalls w' = uiCalls w ++
         [AddChatItem tabId
            {| ci_type := PROMPT; ci_fields := withBody noFields userPrompt |};
          UpdateStore tabId loadingSet;
          AddChatItem tabId {| ci_type := ANSWER_STREAM; ci_fields := noFields |}]).
Proof.
  intros Hc Hne w'. subst w'. split.
  - intros ->. rewrite handleChatPrompt_clear_run by done.
    unfold bind, send, updateStore. simpl.
    split; [done|]. split; [done|].
    intros Ht. unfold ui_updateStore.
    destruct (String.eqb tabId "") eqn:E; [by apply String.eqb_eq in E|].
    unfold tabItems, tabLoading, tabInputDisabled, tabStore. simpl.
    rewrite lookup_alter_eq.
    destruct (tabs (ui w) !! tabId) as [st|]; simpl; [|done].
    split; [done|]. split; [|done]. split; by eexists.
  - intros Hcl userPrompt.
    rewrite (handleChatPrompt_command_run tabId p trig w cmd) by done.
    fold userPrompt. unfold bind, send, addChatItem, withUi, updateStore. simpl.
    split; [done|]. by rewrite <- !app_assoc.
Qed.

(** C2, against the statement as written: submitting /clear empties the
    items of the tab and a quick-action message leaves for the backend. *)
Lemma handleChatPrompt_clear_sends :
  let p := {| prompt := Some ""; escapedPrompt := Some ""; command := Some "/clear" |} in
  let w' := (handleChatPrompt "t1" p (Some "click") Samples.oneTab).2 in
  tabItems w' "t1" = []
  ∧ outbox w' = [OnQuickActionCommand "/clear" (Some "") "t1"]
  ∧ ¬ (outbox w' = outbox Samples.oneTab).
Proof. vm_compute. split; [done|]. split; [done|]. discriminate. Qed.

Lemma handleChatPrompt_quick_action_witness :
  let p := {| prompt := Some ""; escapedPrompt := Some ""; command := Some "/help" |} in
  let w' := (handleChatPrompt "t1" p (Some "click") Samples.oneTab).2 in
  outbox w' = [OnQuickActionCommand "/help" (Some DEFAULT_HELP_PROMPT) "t1"].
Proof.
  destruct (handleChatPrompt_quick_action "t1"
              {| prompt := Some ""; escapedPrompt := Some ""; command := Some "/help" |}
              (Some "click") Samples.oneTab "/help") as [_ H].
  - reflexivity.
  - discriminate.
  - destruct H as [H _]; [discriminate|]. exact H.
Defined.

(** ** The streaming response merger *)

Section Merger.
Variable isValidAuthFollowUpType : string → bool.

Lemma isValidAuthFollowUp_intro r fu o rest t :
  cr_followUp r = Some fu → fu_options fu = Some (o :: rest) →
  act_type o = Some t → t ≠ "" → isValidAuthFollowUpType t = true →
  isValidAuthFollowUp isValidAuthFollowUpType r = true.
Proof.
  intros H1 H2 H3 H4 H5. unfold isValidAuthFollowUp.
  rewrite H1, H2, H3, H5.
  destruct (String.eqb t "") eqn:E; [|done].
  by apply String.eqb_eq in E.
Qed.

(** C6. A result object without any key, received as a final update,
    changes nothing: no call is made on the UI (so no item content
    changes, no end-of-stream signal is issued and the loading and
    input flags stay as they are), and nothing is sent or notified. *)
Theorem addChatResponse_empty_final (r : ChatResult) (tabId : string) (w : World) :
  objectKeysLength r = 0 →
  addChatResponse isValidAuthFollowUpType r tabId false w = (tt, w).
Proof.
  intros H. unfold addChatResponse. by rewrite H.
Qed.






End Merger.




Lemma addChatResponse_empty_final_witness :
  addChatResponse Samples.isValidAuthFollowUpType emptyResult "t1" false
    Samples.oneTab = (tt, Samples.oneTab).
Proof.
  apply (addChatResponse_empty_final Samples.isValidAuthFollowUpType).
  reflexivity.
Defined.

(** From the initial state, nine more tabs can be created; the creation
    after the tenth tab fails, and so does every later one, the table of
    tabs staying as it is. *)
Example createTabs_from_start :
  let w0 := createMynahUi Samples.createTab "tab-init" true in
  let r := Samples.createTabs 11 w0 in
  let r' := Samples.createTabs 9 w0 in
  r.1 = [Some "tab-0"; Some "tab-1"; Some "tab-2"; Some "tab-3"; Some "tab-4";
         Some "tab-5"; Some "tab-6"; Some "tab-7"; Some "tab-8"; None; None]
  ∧ size (tabs (ui r.2)) = 10
  ∧ ui r.2 = ui r'.2.
Proof. by vm_compute. Qed.

Lemma createTabId_at_cap_witness :
  (createTabId Samples.createTab false None Samples.fullTabs).1 = None
  ∧ ui (createTabId Samples.createTab false None Samples.fullTabs).2
    = ui Samples.fullTabs.
Proof.
  rewrite (createTabId_at_cap Samples.createTab false None Samples.fullTabs).
  - split; reflexivity.
  - vm_compute. lia.
Defined.



End MynahUiFacts.

(** * Further properties of the request context builder *)

Module TriggerContextFacts.
Import Trigger TriggerContextBuilder.

Lemma test_anchored_ci_cons (a c : Ascii.ascii) (pat s : string) :
  Js.test_anchored_ci (String a pat) (String c s)
  = Js.test_anchored_ci (String a "") (String c "") && Js.test_anchored_ci pat s.
Proof. simpl. by destruct (Ascii.eqb _ _). Qed.

Lemma test_anchored_ci_app (pat p q : string) :
  Js.test_anchored_ci pat p = true → Js.test_anchored_ci pat (p +:+ q) = true.
Proof.
  revert p. induction pat as [|a pat IH]; intros [|c p]; simpl; try done.
  destruct (Ascii.eqb _ _); [apply IH|done].
Qed.

Lemma test_letter_true (a c : Ascii.ascii) :
  Js.test_anchored_ci (String a "") (String c "") = true →
  Js.canonicalize c = Js.canonicalize a.
Proof.
  simpl. destruct (Ascii.eqb _ _) eqn:E; [|done].
  apply Ascii.eqb_eq in E. done.
Qed.

Lemma test_letter_canonical (a c : Ascii.ascii) :
  Js.test_anchored_ci (String a "") (String c "")
  = Ascii.eqb (Js.canonicalize a) (Js.canonicalize c).
Proof. simpl. by destruct (Ascii.eqb _ _). Qed.

(** The first letters of the four keywords differ, so a character
    matches at most one of them. *)
Lemma first_letters_disjoint (c : Ascii.ascii) :
  let m x := Js.test_anchored_ci x (String c "") in
  (m "e" = true → m "r" = false ∧ m "f" = false ∧ m "o" = false)
  ∧ (m "r" = true → m "f" = false ∧ m "o" = false)
  ∧ (m "f" = true → m "o" = false).
Proof.
  intros m. subst m. cbv beta.
  split; [|split]; intros H; apply test_letter_true in H;
    repeat split; rewrite test_letter_canonical, H; done.
Qed.

(** X1.  No prompt matches two of the four intent patterns, so the
    order in which they are tried never decides the intent. *)
Theorem intent_patterns_disjoint (p : string) :
  (length (filter (λ pat, Js.test_anchored_ci pat p = true)
             ["explain"; "refactor"; "fix"; "optimize"]) ≤ 1)%nat.
Proof.
  destruct p as [|c p]; [vm_compute; lia|].
  rewrite !filter_cons, filter_nil.
  destruct (first_letters_disjoint c) as (He & Hr & Hf). cbv zeta in *.
  rewrite (test_anchored_ci_cons _ c "xplain"), (test_anchored_ci_cons _ c "efactor"),
    (test_anchored_ci_cons _ c "ix"), (test_anchored_ci_cons _ c "ptimize").
  destruct (Js.test_anchored_ci "e" (String c "")) eqn:Ee.
  { destruct (He eq_refl) as (-> & -> & ->). simpl.
    case_decide; simpl; lia. }
  destruct (Js.test_anchored_ci "r" (String c "")) eqn:Er.
  { destruct (Hr eq_refl) as (-> & ->). simpl.
    case_decide; simpl; lia. }
  destruct (Js.test_anchored_ci "f" (String c "")) eqn:Ef.
  { rewrite (Hf eq_refl). simpl. case_decide; simpl; lia. }
  simpl. case_decide; simpl; lia.
Qed.

(** X2.  Once a prompt has an intent, text added after it does not
    change the intent. *)
Theorem guessIntentFromPrompt_extend (p q : string) (i : UserIntent) :
  guessIntentFromPrompt (Some p) = Some i →
  guessIntentFromPrompt (Some (p +:+ q)) = Some i.
Proof.
  destruct p as [|c p]; [intros H; by vm_compute in H|].
  unfold guessIntentFromPrompt.
  change (String c p +:+ q) with (String c (p +:+ q)).
  destruct (first_letters_disjoint c) as (He & Hr & Hf). cbv zeta in *.
  rewrite !(test_anchored_ci_cons _ c "xplain"), !(test_anchored_ci_cons _ c "efactor"),
    !(test_anchored_ci_cons _ c "ix"), !(test_anchored_ci_cons _ c "ptimize").
  destruct (Js.test_anchored_ci "e" (String c "")) eqn:Ee.
  { destruct (He eq_refl) as (-> & -> & ->). cbn [andb].
    destruct (Js.test_anchored_ci "xplain" p) eqn:E; [|done].
    by rewrite (test_anchored_ci_app _ _ q E). }
  destruct (Js.test_anchored_ci "r" (String c "")) eqn:Er.
  { destruct (Hr eq_refl) as (-> & ->). cbn [andb].
    destruct (Js.test_anchored_ci "efactor" p) eqn:E; [|done].
    by rewrite (test_anchored_ci_app _ _ q E). }
  destruct (Js.test_anchored_ci "f" (String c "")) eqn:Ef.
  { rewrite (Hf eq_refl). cbn [andb].
    destruct (Js.test_anchored_ci "ix" p) eqn:E; [|done].
    by rewrite (test_anchored_ci_app _ _ q E). }
  cbn [andb].
  destruct (Js.test_anchored_ci "o" (String c "")); cbn [andb]; [|done].
  destruct (Js.test_anchored_ci "ptimize" p) eqn:E; [|done].
  by rewrite (test_anchored_ci_app _ _ q E).
Qed.

Lemma guessIntentFromPrompt_extend_witness :
  guessIntentFromPrompt (Some ("fix" +:+ " the null check"))
  = Some APPLY_COMMON_BEST_PRACTICES.
Proof. apply guessIntentFromPrompt_extend. reflexivity. Defined.

Section BuilderFacts.
Context {TextDocument Tool ChatTriggerType : Type}.
Variable getTextDocument : string → option TextDocument.
Variable documentContextExtractor : TextDocument → CursorState → DocumentContext.

Implicit Types (params : ChatParams) (k : ChatTriggerType).
Implicit Types (tl : option (list Tool)).

(** X3.  No document context is extracted exactly when the parameters
    name no document, name it by an empty uri, or the workspace does not
    have it; the request is then still built: its intent is guessed from
    the plain prompt, and its context holds the tool list and no editor
    state. *)
Theorem request_without_document params k carn parn tl :
  let tc := getNewTriggerContext getTextDocument documentContextExtractor params in
  (extractDocumentContext getTextDocument documentContextExtractor params = None
   ↔ cp_textDocument params = None
     ∨ cp_textDocument params = Some ""
     ∨ ∃ uri, cp_textDocument params = Some uri ∧ getTextDocument uri = None)
  ∧ (extractDocumentContext getTextDocument documentContextExtractor params = None →
     userIntent tc = guessIntentFromPrompt (prompt (cp_prompt params))
     ∧ userInputMessageContext
         (messageOf (getChatParamsFromTrigger (cp_prompt params) tc k carn parn tl))
       = {| editorState := None;
            tools := match tl with Some l => l | None => [] end |}).
Proof.
  intros tc. subst tc. split.
  - unfold extractDocumentContext.
    destruct (cp_textDocument params) as [uri|]; simpl.
    + destruct (String.eqb uri "") eqn:E; simpl.
      * apply String.eqb_eq in E. subst uri. split; [|done]. intros _. by right; left.
      * destruct (getTextDocument uri) as [doc|] eqn:Ed.
        -- split; [done|]. intros [?|[[=]|(uri' & [=] & Hn)]]; [done| |].
           { subst uri. by rewrite String.eqb_refl in E. }
           subst uri'. congruence.
        -- split; [|done]. intros _. right; right. by exists uri.
    + split; [|done]. intros _. by left.
  - intros Hnone. split; [done|].
    rewrite TriggerFacts.payload_context_cases.
    unfold getNewTriggerContext. rewrite Hnone. simpl. by destruct tl.
Qed.


End BuilderFacts.

Lemma request_without_document_witness :
  userInputMessageContext
    (messageOf
       (getChatParamsFromTrigger
          {| prompt := Some "fix it"; escapedPrompt := None; command := None |}
          (getNewTriggerContext MoreSamples.getTextDocument
             MoreSamples.documentContextExtractor
             {| cp_prompt := {| prompt := Some "fix it"; escapedPrompt := None;
                                command := None |};
                cp_cursorState := None;
                cp_textDocument := Some "file:///missing.ts" |})
          "MANUAL" None None (None : option (list string))))
  = {| editorState := None; tools := [] |}.
Proof.
  destruct (request_without_document MoreSamples.getTextDocument
              MoreSamples.documentContextExtractor
              {| cp_prompt := {| prompt := Some "fix it"; escapedPrompt := None;
                                 command := None |};
                 cp_cursorState := None;
                 cp_textDocument := Some "file:///missing.ts" |}
              "MANUAL" None None (None : option (list string))) as [_ H].
  destruct H as [_ H]; [reflexivity|]. exact H.
Defined.


End TriggerContextFacts.

(** * Further properties of the chat UI controller *)

Module ControllerFacts.
Import MynahUi Controller.
Local Open Scope list_scope.

(** ** The tab table stays well formed *)



















Section Invariant.
Variable isValidAuthFollowUpType : string → bool.
Variable createTab : bool → bool → option (list ChatResult) → MynahUIDataModel.
Variable toMynahIcon : option string → option string.















End Invariant.

(** ** Results for a tab that is not in the table *)

Lemma alter_missing (f : MynahUIDataModel → MynahUIDataModel) t
    (m : gmap string MynahUIDataModel) :
  m !! t = None → alter f t m = m.
Proof.
  intros H. apply map_eq. intros k.
  destruct (decide (t = k)) as [<-|Hne].
  - by rewrite lookup_alter_eq, H.
  - by rewrite lookup_alter_ne.
Qed.

(** X17.  A result, partial or final, for a tab id that is not the
    empty string and names no tab of the table leaves the table of tabs
    and the selection as they were, and sends nothing. *)
Theorem addChatResponse_unknown_tab
    (isValidAuthFollowUpType : string → bool)
    (r : ChatResult) (tabId : string) (isPartialResult : bool) (w : World) :
  tabId ≠ "" → tabStore w tabId = None →
  let w' := (addChatResponse isValidAuthFollowUpType r tabId isPartialResult w).2 in
  tabs (ui w') = tabs (ui w)
  ∧ selectedTabId (ui w') = selectedTabId (ui w)
  ∧ outbox w' = outbox w.
Proof.
  intros Hne Hnone w'. subst w'. unfold tabStore in Hnone.
  unfold addChatResponse.
  destruct isPartialResult.
  { simpl. by rewrite (alter_missing _ _ (tabs (ui w))). }
  destruct (objectKeysLength r =? 0)%nat; [done|].
  destruct (bodyIsEmptyString r && isValidAuthFollowUp isValidAuthFollowUpType r).
  { simpl. by rewrite (alter_missing _ _ (tabs (ui w))). }
  unfold bind, ret, updateLastChatAnswer, endMessageStream, withUi. cbv beta iota.
  rewrite MynahUiFacts.updateStore_existing by done. simpl.
  by rewrite !(alter_missing _ _ (tabs (ui w))).
Qed.

(** ** Turns: prompt, partial results, final result *)

Lemma handleChatPrompt_free_text_run tabId p trig w :
  command p = None ∨ command p = Some "" →
  handleChatPrompt tabId p trig w =
  (send (OnChatPrompt p tabId trig) ;;
   addChatItem tabId
     {| ci_type := PROMPT; ci_fields := withBody noFields (escapedPrompt p) |} ;;
   updateStore tabId loadingSet ;;
   addChatItem tabId {| ci_type := ANSWER_STREAM; ci_fields := noFields |}) w.
Proof.
  intros Hc. unfold handleChatPrompt.
  assert (Js.truthy_string (command p) = false) as ->; [|done].
  by destruct Hc as [-> | ->].
Qed.

Lemma tab_after_loadingSet tabId w t :
  tabId ≠ "" →
  let w' := (updateStore tabId loadingSet w).2 in
  tabItems w' t = tabItems w t
  ∧ (is_Some (tabStore w' t) ↔ is_Some (tabStore w t))
  ∧ (tabId = t → is_Some (tabStore w t) →
     tabLoading w' t = Some true ∧ tabInputDisabled w' t = Some true)
  ∧ (tabId ≠ t → tabStore w' t = tabStore w t).
Proof.
  intros Hne w'. subst w'. rewrite MynahUiFacts.updateStore_existing by done.
  unfold tabItems, tabLoading, tabInputDisabled, tabStore; simpl.
  destruct (decide (tabId = t)) as [->|Hd].
  - rewrite lookup_alter_eq.
    destruct (tabs (ui w) !! t) as [st|]; simpl.
    + split; [done|]. split; [split; by eexists|]. split; [done|]. by intros ?.
    + split; [done|]. split; [done|]. split; [by intros _ [? ?]|]. by intros ?.
  - rewrite lookup_alter_ne by done. done.
Qed.

Lemma tabStore_after_addChatItem_ne tabId it w t :
  tabId ≠ t → tabStore (addChatItem tabId it w).2 t = tabStore w t.
Proof.
  intros Hne. unfold tabStore, addChatItem, withUi; simpl.
  by rewrite lookup_alter_ne.
Qed.

Lemma turn_opened
    (tabId : string) (p : ChatPrompt) (trig : option string) (w : World) :
  command p = None ∨ command p = Some "" → tabId ≠ "" →
  let promptItem :=
    {| ci_type := PROMPT; ci_fields := withBody noFields (escapedPrompt p) |} in
  let streamItem := {| ci_type := ANSWER_STREAM; ci_fields := noFields |} in
  let w' := (handleChatPrompt tabId p trig w).2 in
  outbox w' = outbox w ++ [OnChatPrompt p tabId trig]
  ∧ uiCalls w' = uiCalls w ++
      [AddChatItem tabId promptItem; UpdateStore tabId loadingSet;
       AddChatItem tabId streamItem]
  ∧ (is_Some (tabStore w tabId) →
     tabItems w' tabId = tabItems w tabId ++ [promptItem; streamItem]
     ∧ tabLoading w' tabId = Some true
     ∧ tabInputDisabled w' tabId = Some true)
  ∧ (∀ t, t ≠ tabId → tabStore w' t = tabStore w t).
Proof.
  intros Hc Hne promptItem streamItem w'. subst w'.
  rewrite handleChatPrompt_free_text_run by done.
  fold promptItem streamItem. unfold bind.
  destruct (send (OnChatPrompt p tabId trig) w) as [[] w0] eqn:E0.
  assert (w0 = (send (OnChatPrompt p tabId trig) w).2) as Hw0 by by rewrite E0.
  destruct (addChatItem tabId promptItem w0) as [[] w1] eqn:E1.
  assert (w1 = (addChatItem tabId promptItem w0).2) as Hw1 by by rewrite E1.
  destruct (updateStore tabId loadingSet w1) as [? w2] eqn:E2.
  assert (w2 = (updateStore tabId loadingSet w1).2) as Hw2 by by rewrite E2.
  set (w3 := (addChatItem tabId streamItem w2).2).
  assert (∀ t, tabStore w0 t = tabStore w t) as Hs0 by (by rewrite Hw0).
  assert (∀ t, tabItems w0 t = tabItems w t) as Hi0 by (by rewrite Hw0).
  split.
  { subst w3. rewrite Hw2, MynahUiFacts.updateStore_existing by done.
    rewrite Hw1, Hw0. done. }
  split.
  { subst w3. rewrite Hw2, MynahUiFacts.updateStore_existing by done.
    rewrite Hw1, Hw0. simpl. by rewrite <- !app_assoc. }
  split.
  - intros Hex.
    destruct (MynahUiFacts.tab_after_addChatItem tabId promptItem w0 tabId)
      as (Hi1 & _ & _ & Hex1).
    rewrite <- Hw1 in Hi1, Hex1.
    destruct (tab_after_loadingSet tabId w1 tabId Hne) as (Hi2 & Hex2 & Hf2 & _).
    rewrite <- Hw2 in Hi2, Hex2, Hf2.
    destruct (MynahUiFacts.tab_after_addChatItem tabId streamItem w2 tabId)
      as (Hi3 & Hl3 & Hd3 & _).
    fold w3 in Hi3, Hl3, Hd3.
    assert (is_Some (tabStore w0 tabId)) as Hex0 by by rewrite Hs0.
    assert (is_Some (tabStore w1 tabId)) as Hex1' by by apply Hex1.
    assert (is_Some (tabStore w2 tabId)) as Hex2' by by apply Hex2.
    rewrite decide_True in Hi1 by done.
    rewrite decide_True in Hi3 by done.
    destruct (Hf2 eq_refl Hex1') as [Hl2 Hd2].
    rewrite Hi3, Hi2, Hi1, Hi0, Hl3, Hd3. by rewrite <- app_assoc.
  - intros t Ht. subst w3.
    rewrite tabStore_after_addChatItem_ne by done.
    destruct (tab_after_loadingSet tabId w1 t Hne) as (_ & _ & _ & Hn).
    rewrite <- Hw2 in Hn. rewrite Hn by done.
    rewrite Hw1, tabStore_after_addChatItem_ne by done. apply Hs0.
Qed.

(** X6.  A prompt without a quick-action command (none, or the empty
    string) opens a turn: one chat-prompt message goes to the backend,
    and in an existing tab a prompt item carrying the escaped prompt and
    an empty streaming item are appended, in that order, with the
    loading and input-disabled flags set; the other tabs are left as
    they are. *)
Theorem handleChatPrompt_free_text
    (tabId : string) (p : ChatPrompt) (trig : option string) (w : World) :
  command p = None ∨ command p = Some "" → tabId ≠ "" →
  let promptItem :=
    {| ci_type := PROMPT; ci_fields := withBody noFields (escapedPrompt p) |} in
  let streamItem := {| ci_type := ANSWER_STREAM; ci_fields := noFields |} in
  let w' := (handleChatPrompt tabId p trig w).2 in
  outbox w' = outbox w ++ [OnChatPrompt p tabId trig]
  ∧ uiCalls w' = uiCalls w ++
      [AddChatItem tabId promptItem; UpdateStore tabId loadingSet;
       AddChatItem tabId streamItem]
  ∧ (is_Some (tabStore w tabId) →
     tabItems w' tabId = tabItems w tabId ++ [promptItem; streamItem]
     ∧ tabLoading w' tabId = Some true
     ∧ tabInputDisabled w' tabId = Some true)
  ∧ (∀ t, t ≠ tabId → tabStore w' t = tabStore w t).
Proof. apply turn_opened. Qed.

(** The regular final branch, with the update it hands to the UI. *)
Lemma final_run (isV : string → bool) r tabId w :
  objectKeysLength r ≠ 0 →
  cr_body r ≠ Some "" ∨ isValidAuthFollowUp isV r = false →
  ∃ upd,
    body upd = cr_body r ∧ messageId upd = cr_messageId r
    ∧ addChatResponse isV r tabId false w =
      (updateLastChatAnswer tabId upd ;;
       endMessageStream tabId (Js.nullish_or (cr_messageId r) "") ;;
       updateStore tabId flagsCleared ;;
       ret tt) w.
Proof.
  intros Hk Hauth. unfold addChatResponse.
  destruct (objectKeysLength r) as [|n] eqn:E; [done|]. simpl.
  assert (bodyIsEmptyString r && isValidAuthFollowUp isV r = false) as ->.
  { destruct Hauth as [Hb| ->]; [|by rewrite andb_false_r].
    unfold bodyIsEmptyString. destruct (cr_body r) as [b|]; [|done].
    destruct (String.eqb b "") eqn:Eb; [|done].
    apply String.eqb_eq in Eb. by subst b. }
  eexists. split; [|split; [|reflexivity]]; done.
Qed.

(** What a regular final result leaves in its tab. *)
Lemma final_result_tab (isV : string → bool) r tabId w :
  objectKeysLength r ≠ 0 →
  cr_body r ≠ Some "" ∨ isValidAuthFollowUp isV r = false →
  tabId ≠ "" →
  let w' := (addChatResponse isV r tabId false w).2 in
  outbox w' = outbox w
  ∧ (∃ upd, body upd = cr_body r ∧ messageId upd = cr_messageId r
            ∧ tabItems w' tabId
              = mapLast endStream (mapLast (updateFields upd) (tabItems w tabId)))
  ∧ (is_Some (tabStore w tabId) →
     tabLoading w' tabId = Some false ∧ tabInputDisabled w' tabId = Some false).
Proof.
  intros Hk Hauth Hne w'. subst w'.
  destruct (final_run isV r tabId w Hk Hauth) as (upd & Hb & Hm & ->).
  unfold bind, ret.
  destruct (updateLastChatAnswer tabId upd w) as [[] w1] eqn:E1.
  destruct (endMessageStream tabId _ w1) as [[] w2] eqn:E2.
  destruct (updateStore tabId flagsCleared w2) as [? w3] eqn:E3. simpl.
  assert (w1 = (updateLastChatAnswer tabId upd w).2) as Hw1 by by rewrite E1.
  assert (w2 = (endMessageStream tabId (Js.nullish_or (cr_messageId r) "") w1).2)
    as Hw2 by by rewrite E2.
  assert (w3 = (updateStore tabId flagsCleared w2).2) as Hw3 by by rewrite E3.
  destruct (MynahUiFacts.tab_after_updateLastChatAnswer tabId upd w tabId) as (Hi1 & _).
  destruct (MynahUiFacts.tab_after_endMessageStream tabId
              (Js.nullish_or (cr_messageId r) "") w1 tabId) as (Hi2 & _).
  destruct (MynahUiFacts.tab_after_flagsCleared tabId w2 tabId Hne) as (Hi3 & Hc3 & _).
  rewrite <- Hw1 in Hi1. rewrite <- Hw2 in Hi2. rewrite <- Hw3 in Hi3, Hc3.
  rewrite decide_True in Hi1 by done. rewrite decide_True in Hi2 by done.
  split.
  { rewrite Hw3, MynahUiFacts.updateStore_existing by done. simpl.
    by rewrite Hw2, Hw1. }
  split.
  { exists upd. split; [done|]. split; [done|]. by rewrite Hi3, Hi2, Hi1. }
  intros Hex. apply Hc3; [done|].
  rewrite Hw2, Hw1. unfold tabStore in *; simpl.
  rewrite !lookup_alter_eq. destruct Hex as [st ->]. by eexists.
Qed.

(** X7.  A turn from start to end: after a prompt without command and
    a final result that is neither without keys nor an authentication
    follow-up, the tab holds its former items, the prompt item, and one
    terminal answer with the body and message id of the result; no
    streaming item was added, and both flags are false again. *)
Theorem turn_round_trip
    (isValidAuthFollowUpType : string → bool)
    (tabId : string) (p : ChatPrompt) (trig : option string)
    (r : ChatResult) (w : World) :
  command p = None ∨ command p = Some "" → tabId ≠ "" →
  is_Some (tabStore w tabId) →
  objectKeysLength r ≠ 0 →
  cr_body r ≠ Some "" ∨ isValidAuthFollowUp isValidAuthFollowUpType r = false →
  let promptItem :=
    {| ci_type := PROMPT; ci_fields := withBody noFields (escapedPrompt p) |} in
  let w' := ((handleChatPrompt tabId p trig ;;
              addChatResponse isValidAuthFollowUpType r tabId false) w).2 in
  (∃ a, tabItems w' tabId = tabItems w tabId ++ [promptItem; a]
        ∧ ci_type a = ANSWER
        ∧ body (ci_fields a) = cr_body r
        ∧ messageId (ci_fields a) = cr_messageId r)
  ∧ streaming (tabItems w' tabId) = streaming (tabItems w tabId)
  ∧ tabLoading w' tabId = Some false
  ∧ tabInputDisabled w' tabId = Some false
  ∧ outbox w' = outbox w ++ [OnChatPrompt p tabId trig].
Proof.
  intros Hc Hne Hex Hk Hauth promptItem w'. subst w'. unfold bind.
  destruct (handleChatPrompt tabId p trig w) as [[] w1] eqn:E1.
  assert (w1 = (handleChatPrompt tabId p trig w).2) as Hw1 by by rewrite E1.
  destruct (turn_opened tabId p trig w Hc Hne) as (Ho1 & _ & Ht1 & _).
  cbv zeta in Ho1, Ht1. rewrite <- Hw1 in Ho1, Ht1.
  destruct (Ht1 Hex) as (Hi1 & Hl1 & Hd1).
  destruct (final_result_tab isValidAuthFollowUpType r tabId w1 Hk Hauth Hne)
    as (Ho2 & (upd & Hb & Hm & Hi2) & Hf2).
  assert (is_Some (tabStore w1 tabId)) as Hex1.
  { unfold tabLoading in Hl1. destruct (tabStore w1 tabId); [by eexists|done]. }
  destruct (Hf2 Hex1) as [Hl2 Hd2].
  assert (tabItems (addChatResponse isValidAuthFollowUpType r tabId false w1).2 tabId
          = tabItems w tabId ++
              [promptItem;
               {| ci_type := ANSWER; ci_fields := mergeFields noFields upd |}])
    as Hitems.
  { rewrite Hi2, Hi1.
    assert (∀ (l : list ChatItem) a b, l ++ [a; b] = (l ++ [a]) ++ [b]) as Hsplit
      by (intros; by rewrite <- app_assoc).
    rewrite (Hsplit (tabItems w tabId) promptItem), !MynahUiFacts.mapLast_snoc.
    by rewrite <- app_assoc. }
  split.
  { eexists. split; [exact Hitems|]. split; [done|]. simpl.
    rewrite <- Hb, <- Hm. by destruct (body upd), (messageId upd). }
  split.
  { rewrite Hitems. unfold streaming. rewrite filter_app, length_app.
    change (length (filter _ [promptItem; _])) with 0. lia. }
  split; [done|]. split; [done|]. by rewrite Ho2, Ho1.
Qed.


(** ** Tabs on demand *)

Section OnDemand.
Variable createTab : bool → bool → option (list ChatResult) → MynahUIDataModel.

Lemma getOrCreateTabId_selected (w : World) s :
  selectedTabId (ui w) = Some s → getOrCreateTabId createTab w = (Some s, w).
Proof.
  intros H. unfold getOrCreateTabId, getSelectedTabId, bind. by rewrite H.
Qed.

Lemma getOrCreateTabId_unselected (w : World) :
  selectedTabId (ui w) = None →
  getOrCreateTabId createTab w = createTabId createTab false None w.
Proof.
  intros H. unfold getOrCreateTabId, getSelectedTabId, bind. by rewrite H.
Qed.

Lemma createTabId_created_run nw cm (w : World) :
  (size (tabs (ui w)) < maxTabs)%nat →
  createTabId createTab nw cm w =
  (Some (generateUID (uidCounter (ui w))),
   (updateStore "" (createTab nw (disclaimerCardActive w) cm) w).2).
Proof.
  intros H. unfold createTabId, bind. cbv beta iota.
  by rewrite MynahUiFacts.updateStore_create.
Qed.

(** X9.  Once [getOrCreateTabId] has returned a tab, asking again
    returns the same tab and changes nothing: a tab created on demand
    is the selected one afterwards. *)
Theorem getOrCreateTabId_again (w : World) (t : string) :
  (getOrCreateTabId createTab w).1 = Some t →
  getOrCreateTabId createTab (getOrCreateTabId createTab w).2
  = (Some t, (getOrCreateTabId createTab w).2).
Proof.
  destruct (selectedTabId (ui w)) as [s|] eqn:Hsel.
  - rewrite (getOrCreateTabId_selected w s Hsel). simpl. intros [= <-].
    by apply getOrCreateTabId_selected.
  - rewrite (getOrCreateTabId_unselected w Hsel).
    destruct (decide (size (tabs (ui w)) < maxTabs)%nat) as [Hlt|Hge].
    + rewrite createTabId_created_run by done. cbn [fst snd]. intros [= <-].
      apply getOrCreateTabId_selected.
      by rewrite MynahUiFacts.updateStore_create.
    + rewrite MynahUiFacts.createTabId_full_run by lia. done.
Qed.

Lemma handleChatPrompt_selection tabId p trig (w : World) :
  command p = None ∨ command p = Some "" → tabId ≠ "" →
  selectedTabId (ui (handleChatPrompt tabId p trig w).2) = selectedTabId (ui w).
Proof.
  intros Hc Hne. rewrite handleChatPrompt_free_text_run by done.
  unfold bind, send, addChatItem, withUi. cbv beta iota.
  rewrite MynahUiFacts.updateStore_existing by done. done.
Qed.

Lemma getTabStore_of s (w : World) :
  s ≠ "" → getTabStore (Some s) w = (tabStore w s, w).
Proof.
  intros Hne. unfold getTabStore, bind, ret, getAllTabs. simpl.
  destruct (String.eqb s "") eqn:E; [by apply String.eqb_eq in E|]. done.
Qed.

Lemma genericCommandBody_text params :
  genericCommandBody params
  = gc_genericCommand params +:+ " the following part of my code:"
    +:+ newline +:+ "~~~~" +:+ newline
    +:+ gc_selection params
    +:+ newline +:+ "~~~~" +:+ newline.
Proof. done. Qed.

Lemma truthy_nonempty s : s ≠ "" → Js.truthy_string (Some s) = true.
Proof.
  intros H. simpl. destruct (String.eqb s "") eqn:E; [|done].
  by apply String.eqb_eq in E.
Qed.

Lemma isLoading_of (w : World) s :
  tabLoading w s = Some true → isLoading (tabStore w s) = true.
Proof.
  unfold tabLoading, isLoading. destruct (tabStore w s) as [st|]; [|done].
  by intros ->.
Qed.

Lemma sendGenericCommand_loading_run params (w : World) s :
  selectedTabId (ui w) = Some s → s ≠ "" → tabLoading w s = Some true →
  sendGenericCommand createTab params w =
  (let* tabId := createTabId createTab false None in
   if negb (Js.truthy_string tabId) then ret tt
   else handleChatPrompt (Js.nullish_or tabId "")
          {| prompt := Some (genericCommandBody params);
             escapedPrompt := Some (genericCommandBody params);
             command := None |}
          (Some (gc_triggerType params))) w.
Proof.
  intros Hsel Hs Hload.
  unfold sendGenericCommand. cbv zeta.
  unfold bind at 1. rewrite (getOrCreateTabId_selected w s Hsel). cbv beta iota.
  rewrite truthy_nonempty by done.
  cbn [negb]. unfold bind at 1. rewrite getTabStore_of by done. cbv beta iota.
  by rewrite isLoading_of.
Qed.

(** X10.  A generic command never joins a tab that is loading.  When
    the selected tab is loading and a tab can be created, the command's
    prompt (the command, " the following part of my code:", and the
    selection between two fence lines) goes to the new tab, which is
    selected and loading afterwards, and the loading tab's store is
    untouched; when ten tabs are live, nothing is sent and no tab
    changes. *)
Theorem sendGenericCommand_loading
    (params : GenericCommandParams) (w : World) (s : string) :
  selectedTabId (ui w) = Some s → s ≠ "" → tabLoading w s = Some true →
  let w' := (sendGenericCommand createTab params w).2 in
  let new := generateUID (uidCounter (ui w)) in
  let text := gc_genericCommand params +:+ " the following part of my code:"
              +:+ newline +:+ "~~~~" +:+ newline
              +:+ gc_selection params
              +:+ newline +:+ "~~~~" +:+ newline in
  ((size (tabs (ui w)) < 10)%nat → new ≠ s →
     tabStore w' s = tabStore w s
     ∧ outbox w' = outbox w ++
         [OnChatPrompt {| prompt := Some text; escapedPrompt := Some text;
                          command := None |}
            new (Some (gc_triggerType params))]
     ∧ selectedTabId (ui w') = Some new
     ∧ tabLoading w' new = Some true)
  ∧ ((10 ≤ size (tabs (ui w)))%nat →
     ui w' = ui w ∧ outbox w' = outbox w).
Proof.
  intros Hsel Hs Hload w' new text. subst w'.
  rewrite (sendGenericCommand_loading_run params w s) by done.
  rewrite genericCommandBody_text. fold text. unfold bind. split.
  - intros Hlt Hnew.
    rewrite createTabId_created_run by done. cbv beta iota. fold new.
    assert (new ≠ "") as Hnn by apply MynahUiFacts.generateUID_nonempty.
    rewrite truthy_nonempty by done. cbn [negb Js.nullish_or].
    set (w1 := (updateStore "" (createTab false (disclaimerCardActive w) None) w).2).
    set (p := {| prompt := Some text; escapedPrompt := Some text; command := None |}).
    destruct (turn_opened new p (Some (gc_triggerType params)) w1
                (or_introl eq_refl) Hnn) as (Ho & _ & Ht & Hother).
    cbv zeta in Ho, Ht, Hother.
    assert (tabStore w1 s = tabStore w s) as Hs1.
    { subst w1. rewrite MynahUiFacts.updateStore_create by done.
      unfold tabStore. simpl. fold new. by rewrite lookup_insert_ne. }
    assert (is_Some (tabStore w1 new)) as Hex.
    { subst w1. rewrite MynahUiFacts.updateStore_create by done.
      unfold tabStore. simpl. fold new. rewrite lookup_insert_eq. by eexists. }
    destruct (Ht Hex) as (_ & Hlo & _).
    split; [by rewrite Hother, Hs1|].
    split.
    { rewrite Ho. subst w1. by rewrite MynahUiFacts.updateStore_create. }
    split; [|done].
    rewrite handleChatPrompt_selection by (done || by left).
    subst w1. by rewrite MynahUiFacts.updateStore_create.
  - intros Hge.
    rewrite MynahUiFacts.createTabId_full_run by (unfold maxTabs; lia). done.
Qed.

Lemma sendGenericCommand_idle_run params (w : World) s :
  selectedTabId (ui w) = Some s → s ≠ "" → tabLoading w s ≠ Some true →
  sendGenericCommand createTab params w =
  handleChatPrompt s
    {| prompt := Some (genericCommandBody params);
       escapedPrompt := Some (genericCommandBody params);
       command := None |}
    (Some (gc_triggerType params)) w.
Proof.
  intros Hsel Hs Hload.
  unfold sendGenericCommand. cbv zeta.
  unfold bind at 1. rewrite (getOrCreateTabId_selected w s Hsel). cbv beta iota.
  rewrite truthy_nonempty by done.
  cbn [negb]. unfold bind at 1. rewrite getTabStore_of by done. cbv beta iota.
  assert (isLoading (tabStore w s) = false) as ->; [|done].
  unfold tabLoading in Hload. unfold isLoading.
  destruct (tabStore w s) as [st|]; [|done].
  destruct (loadingChat st) as [[]|]; done.
Qed.

(** X11.  When the selected tab is not loading, a generic command opens
    its turn there: the prompt built from the command and the selection
    is sent for that tab with the caller's trigger type, a prompt item
    and a streaming item are appended to it, and no tab is created. *)
Theorem sendGenericCommand_idle
    (params : GenericCommandParams) (w : World) (s : string) :
  selectedTabId (ui w) = Some s → s ≠ "" → is_Some (tabStore w s) →
  tabLoading w s ≠ Some true →
  let w' := (sendGenericCommand createTab params w).2 in
  let text := gc_genericCommand params +:+ " the following part of my code:"
              +:+ newline +:+ "~~~~" +:+ newline
              +:+ gc_selection params
              +:+ newline +:+ "~~~~" +:+ newline in
  outbox w' = outbox w ++
    [OnChatPrompt {| prompt := Some text; escapedPrompt := Some text;
                     command := None |}
       s (Some (gc_triggerType params))]
  ∧ tabItems w' s = tabItems w s ++
      [ {| ci_type := PROMPT; ci_fields := withBody noFields (Some text) |};
        {| ci_type := ANSWER_STREAM; ci_fields := noFields |} ]
  ∧ tabLoading w' s = Some true
  ∧ (∀ t, t ≠ s → tabStore w' t = tabStore w t).
Proof.
  intros Hsel Hs Hex Hload w' text. subst w'.
  rewrite (sendGenericCommand_idle_run params w s) by done.
  rewrite genericCommandBody_text. fold text.
  destruct (turn_opened s
              {| prompt := Some text; escapedPrompt := Some text; command := None |}
              (Some (gc_triggerType params)) w (or_introl eq_refl) Hs)
    as (Ho & _ & Ht & Hother).
  cbv zeta in Ho, Ht, Hother. destruct (Ht Hex) as (Hi & Hl & _).
  done.
Qed.

End OnDemand.

(** ** Context commands for every tab *)

Section Broadcast.
Variable toMynahIcon : option string → option string.

Lemma sameButCommands_refl g st : sameButCommands g st st.
Proof. repeat split; by left. Qed.

Lemma broadcast_step g (keys : list string) (w : World) :
  contextCommandGroups w = Some g →
  "" ∉ keys →
  let w' := (forEach keys
               (λ tabId,
                  let* current := (λ w, (contextCommandGroups w, w)) in
                  updateStore tabId
                    {| chatItems := None; loadingChat := None;
                       promptInputDisabledState := None;
                       contextCommands := current |} ;;
                  ret tt) w).2 in
  ∀ t st, tabStore w t = Some st →
    ∃ st', tabStore w' t = Some st'
           ∧ sameButCommands g st st'
           ∧ (t ∈ keys ∨ contextCommands st = Some g → contextCommands st' = Some g).
Proof.
  revert w. induction keys as [|k keys IH]; intros w Hg Hkeys.
  - simpl. intros t st Hst. exists st. split; [done|].
    split; [apply sameButCommands_refl|].
    intros [Hin|?]; [|done]. by apply elem_of_nil in Hin.
  - set (data := {| chatItems := None; loadingChat := None;
                    promptInputDisabledState := None;
                    contextCommands := Some g |}).
    set (w1 := (updateStore k data w).2).
    assert (k ≠ "") as Hk by (intros ->; apply Hkeys; left).
    assert ("" ∉ keys) as Hkeys' by (intros ?; apply Hkeys; by right).
    assert (contextCommandGroups w1 = Some g) as Hg1.
    { subst w1. by rewrite MynahUiFacts.updateStore_existing. }
    assert ((forEach (k :: keys)
               (λ tabId,
                  let* current := (λ w, (contextCommandGroups w, w)) in
                  updateStore tabId
                    {| chatItems := None; loadingChat := None;
                       promptInputDisabledState := None;
                       contextCommands := current |} ;;
                  ret tt) w).2
            = (forEach keys
                 (λ tabId,
                    let* current := (λ w, (contextCommandGroups w, w)) in
                    updateStore tabId
                      {| chatItems := None; loadingChat := None;
                         promptInputDisabledState := None;
                         contextCommands := current |} ;;
                    ret tt) w1).2) as Heq.
    { cbn [forEach]. unfold bind at 1 2 3. cbv beta iota. rewrite Hg.
      subst w1 data. by destruct (updateStore k _ w). }
    cbv zeta. rewrite Heq.
    intros t st Hst.
    assert (∃ st1, tabStore w1 t = Some st1
                   ∧ sameButCommands g st st1
                   ∧ (t = k → contextCommands st1 = Some g)) as (st1 & Hst1 & Hsame1 & Hk1).
    { subst w1. rewrite MynahUiFacts.updateStore_existing by done.
      unfold tabStore in *. simpl. destruct (decide (k = t)) as [->|Hne].
      - rewrite lookup_alter_eq, Hst. simpl. eexists. split; [done|].
        split; [|done]. repeat split; by right.
      - rewrite lookup_alter_ne, Hst by done. exists st. split; [done|].
        split; [apply sameButCommands_refl|]. by intros ->. }
    destruct (IH w1 Hg1 Hkeys' t st1 Hst1) as (st' & Hst' & Hsame' & Hin').
    cbv zeta in Hst'. exists st'. split; [done|].
    destruct Hsame1 as (Ha & Hb & Hc & Hd), Hsame' as (Ha' & Hb' & Hc' & Hd').
    split.
    { split; [congruence|]. split; [congruence|]. split; [congruence|].
      destruct Hd' as [Hd'|Hd']; [|by right]. rewrite Hd'. done. }
    intros [Hin|Hsome].
    + apply elem_of_cons in Hin as [->|Hin].
      * apply Hin'. right. by apply Hk1.
      * apply Hin'. by left.
    + apply Hin'. right. destruct Hd as [Hd|Hd]; [by rewrite Hd|done].
Qed.

(** X12.  After [sendContextCommands], every tab of the table carries
    the translated groups as its context commands, with its items and
    flags as before, and the controller keeps the same groups for the
    tabs to come (no tab has the empty string as its id). *)
Theorem sendContextCommands_broadcast
    (groups : list ContextCommandGroup) (w : World) :
  tabStore w "" = None →
  let w' := (sendContextCommands toMynahIcon groups w).2 in
  let translated := map (toContextCommandChild toMynahIcon) groups in
  contextCommandGroups w' = Some translated
  ∧ ∀ t st, tabStore w t = Some st →
      ∃ st', tabStore w' t = Some st'
             ∧ contextCommands st' = Some translated
             ∧ chatItems st' = chatItems st
             ∧ loadingChat st' = loadingChat st
             ∧ promptInputDisabledState st' = promptInputDisabledState st.
Proof.
  intros Hempty w' translated. subst w'.
  split; [apply MynahUiFacts.sendContextCommands_groups|].
  intros t st Hst.
  unfold sendContextCommands, setContextCommandGroups, getAllTabs.
  unfold bind at 1. cbv beta iota. unfold bind at 1. cbv beta iota.
  cbn [ui].
  assert (map (λ group,
                 match group with
                 | mkContextCommandGroup n commands =>
                     mkQuickActionCommandGroup n (toContextCommands toMynahIcon commands)
                 end) groups = translated) as ->.
  { apply map_ext. by intros [n cs]. }
  set (w0 := {| ui := ui w; uiCalls := uiCalls w; outbox := outbox w;
                disclaimerCardActive := disclaimerCardActive w;
                contextCommandGroups := Some translated |}).
  assert ("" ∉ map fst (map_to_list (tabs (ui w)))) as Hkeys.
  { intros Hin. apply list_elem_of_fmap in Hin as ([k v] & Hk & Hin).
    simpl in Hk. subst k. apply elem_of_map_to_list in Hin.
    unfold tabStore in Hempty. congruence. }
  destruct (broadcast_step translated (map fst (map_to_list (tabs (ui w)))) w0
              eq_refl Hkeys t st Hst) as (st' & Hst' & (Ha & Hb & Hc & _) & Hin).
  exists st'. split; [exact Hst'|]. split; [|done].
  apply Hin. left. apply list_elem_of_fmap. exists (t, st). split; [done|].
  by apply elem_of_map_to_list.
Qed.

End Broadcast.

(** ** Labels of several line ranges *)

Lemma append_separator_nonempty (a b : string) : a +:+ ", " +:+ b ≠ "".
Proof. by destruct a. Qed.

Lemma rangeLabel_empty (r : LineRange) :
  rangeLabel r = "" ↔ first r = (-1)%Z ∨ second r = (-1)%Z.
Proof.
  unfold rangeLabel.
  destruct (Z.eqb_spec (first r) (-1)) as [Hf|Hf];
    destruct (Z.eqb_spec (second r) (-1)) as [Hs|Hs]; simpl;
    split; try done; try (intros _; by left); try (intros _; by right).
  intros [?|?]; done.
Qed.

(** X13.  The label of a file is empty exactly when the file has no
    line ranges, or a single range with a bound equal to -1.  With two
    ranges or more the label is never empty, even when every bound is
    -1: the separators remain. *)
Theorem detailsLabel_empty (fd : FileDetails) :
  detailsLabel fd = ""
  ↔ lineRanges fd = None
    ∨ lineRanges fd = Some []
    ∨ ∃ r, lineRanges fd = Some [r] ∧ (first r = (-1)%Z ∨ second r = (-1)%Z).
Proof.
  unfold detailsLabel.
  destruct (lineRanges fd) as [[|r [|r' rs]]|]; rewrite ?MynahUiFacts.or_string_empty.
  - split; [intros _; by right; left|done].
  - simpl. rewrite rangeLabel_empty. split.
    + intros H. right; right. by exists r.
    + intros [[=]|[[=]|(r0 & [= <-] & H)]]. done.
  - cbn [map Js.join]. split.
    + intros H. by apply append_separator_nonempty in H.
    + intros [[=]|[[=]|(r0 & [=] & _)]].
  - split; [intros _; by left|done].
Qed.

(** ** Opening tabs, sending to the prompt, follow-up clicks *)

Section Events.
Variable isValidAuthFollowUpType : string → bool.
Variable createTab : bool → bool → option (list ChatResult) → MynahUIDataModel.

Lemma tabs_selectTab t u : tabs (ui_selectTab t u) = tabs u.
Proof. unfold ui_selectTab. by destruct (tabs u !! t). Qed.

(** X14.  [openTab] answers every request exactly once, after at most
    one [selectTab], and sends nothing else.  With a tab id the answer
    is that id, whether or not the tab exists, the tab is selected only
    if it was not the selected one, and no tab is created.  Without a
    tab id a tab is created; the answer is an error exactly when ten
    tabs are live. *)
Theorem openTab_reply (requestId : string) (params : OpenTabParams) (s : Session) :
  let s' := (openTab createTab requestId params s).2 in
  outbox (world s') = outbox (world s)
  ∧ ∃ pre res,
      effects s' = effects s ++ pre ++ [OnOpenTab requestId res]
      ∧ (pre = []
         ∨ ∃ t, pre = [SelectTab t] ∧ ot_tabId params = Some t
                ∧ selectedTabId (ui (world s)) ≠ Some t)
      ∧ ((∃ ty m, res = OpenTabError ty m)
         ↔ (ot_tabId params = None ∨ ot_tabId params = Some "")
           ∧ (10 ≤ size (tabs (ui (world s))))%nat)
      ∧ (∀ t, ot_tabId params = Some t → t ≠ "" →
           res = OpenTabOk t
           ∧ tabs (ui (world s')) = tabs (ui (world s))
           ∧ (selectedTabId (ui (world s)) = Some t → pre = [])).
Proof.
  intros s'. subst s'. unfold openTab.
  destruct (ot_tabId params) as [t|] eqn:Ht.
  - simpl. destruct (String.eqb t "") eqn:E; simpl.
    + apply String.eqb_eq in E. subst t.
      destruct (decide (size (tabs (ui (world s))) < maxTabs)%nat) as [Hlt|Hge].
      * unfold sbind, lift. rewrite createTabId_created_run by done.
        cbn [fst snd]. rewrite truthy_nonempty by apply MynahUiFacts.generateUID_nonempty.
        unfold effect. cbn [fst snd world effects].
        split; [by rewrite MynahUiFacts.updateStore_create|].
        exists [], (OpenTabOk (generateUID (uidCounter (ui (world s))))).
        split; [done|]. split; [by left|]. split.
        -- split; [by intros (? & ? & ?)|]. unfold maxTabs in *. lia.
        -- by intros ? [= <-].
      * unfold sbind, lift. rewrite MynahUiFacts.createTabId_full_run by lia.
        cbn [fst snd Js.truthy_string]. unfold effect. cbn [fst snd world effects].
        split; [done|].
        exists [], (OpenTabError "InvalidRequest" "No more tabs available").
        split; [done|]. split; [by left|]. split.
        -- split; [|by eexists _, _]. intros _. split; [by right|].
           unfold maxTabs in *. lia.
        -- by intros ? [= <-].
    + assert (t ≠ "") as Hne by (intros ->; by rewrite String.eqb_refl in E).
      unfold sbind, lift, getSelectedTabId. cbn [fst snd world].
      case_bool_decide as Hsel.
      * unfold selectTab, effect. cbn [fst snd world effects ui outbox].
        split; [done|].
        exists [SelectTab t], (OpenTabOk t). split; [by rewrite <- app_assoc|].
        split; [right; exists t; split; [done|]; split; [done|congruence]|].
        split.
        -- split; [by intros (? & ? & ?)|]. intros [[?|[= ->]] _]; done.
        -- intros ? [= <-] _. split; [done|]. split; [apply tabs_selectTab|].
           congruence.
      * unfold sret, effect. cbn [fst snd world effects].
        split; [done|].
        exists [], (OpenTabOk t). split; [done|]. split; [by left|]. split.
        -- split; [by intros (? & ? & ?)|]. intros [[?|[= ->]] _]; done.
        -- by intros ? [= <-] _.
  - simpl.
    destruct (decide (size (tabs (ui (world s))) < maxTabs)%nat) as [Hlt|Hge].
    + unfold sbind, lift. rewrite createTabId_created_run by done.
      cbn [fst snd]. rewrite truthy_nonempty by apply MynahUiFacts.generateUID_nonempty.
      unfold effect. cbn [fst snd world effects].
      split; [by rewrite MynahUiFacts.updateStore_create|].
      exists [], (OpenTabOk (generateUID (uidCounter (ui (world s))))).
      split; [done|]. split; [by left|]. split; [|done].
      split; [by intros (? & ? & ?)|]. unfold maxTabs in *. lia.
    + unfold sbind, lift. rewrite MynahUiFacts.createTabId_full_run by lia.
      cbn [fst snd Js.truthy_string]. unfold effect. cbn [fst snd world effects].
      split; [done|].
      exists [], (OpenTabError "InvalidRequest" "No more tabs available").
      split; [done|]. split; [by left|]. split; [|done].
      split; [|by eexists _, _]. intros _. split; [by left|].
      unfold maxTabs in *. lia.
Qed.

(** X15.  [sendToPrompt] never opens a turn: nothing is sent on the
    chat channel.  With a selected tab the selection is added to that
    tab's prompt as code and reported for that tab, the state being
    untouched; with none selected and ten tabs live, nothing is added or
    reported and the table of tabs is unchanged. *)
Theorem sendToPrompt_target (params : SendToPromptParams) (s : Session) :
  let s' := (sendToPrompt createTab params s).2 in
  outbox (world s') = outbox (world s)
  ∧ (∀ t, selectedTabId (ui (world s)) = Some t → t ≠ "" →
       world s' = world s
       ∧ effects s' = effects s ++
           [AddToUserPrompt t (sp_selection params) "code";
            OnSendToPrompt params t])
  ∧ (selectedTabId (ui (world s)) = None →
     (size (tabs (ui (world s))) < 10)%nat →
       let new := generateUID (uidCounter (ui (world s))) in
       selectedTabId (ui (world s')) = Some new
       ∧ effects s' = effects s ++
           [AddToUserPrompt new (sp_selection params) "code";
            OnSendToPrompt params new])
  ∧ (selectedTabId (ui (world s)) = None →
     (10 ≤ size (tabs (ui (world s))))%nat →
       effects s' = effects s ∧ ui (world s') = ui (world s)).
Proof.
  intros s'. subst s'. unfold sendToPrompt, sbind, lift.
  destruct (selectedTabId (ui (world s))) as [t|] eqn:Hsel.
  - rewrite (getOrCreateTabId_selected createTab (world s) t Hsel). cbn [fst snd].
    destruct (decide (t = "")) as [->|Hne].
    + simpl. split; [done|]. split; [by intros ? [= <-]|]. done.
    + rewrite truthy_nonempty by done. cbn [negb Js.nullish_or].
      unfold effect. cbn [fst snd world effects].
      split; [done|]. split; [|done].
      intros ? [= <-] _. split; [by destruct s|]. by rewrite <- app_assoc.
  - rewrite (getOrCreateTabId_unselected createTab (world s) Hsel).
    destruct (decide (size (tabs (ui (world s))) < maxTabs)%nat) as [Hlt|Hge].
    + rewrite createTabId_created_run by done. cbn [fst snd].
      rewrite truthy_nonempty by apply MynahUiFacts.generateUID_nonempty.
      cbn [negb Js.nullish_or]. unfold effect. cbn [fst snd world effects].
      rewrite MynahUiFacts.updateStore_create by done. cbn [snd ui outbox selectedTabId].
      split; [done|]. split; [done|]. split.
      * intros _ _. split; [done|]. by rewrite <- app_assoc.
      * intros _ Hge. unfold maxTabs in *. lia.
    + rewrite MynahUiFacts.createTabId_full_run by lia. cbn [fst snd].
      simpl. split; [done|]. split; [done|]. split; [|done].
      intros _ Hlt. unfold maxTabs in *. lia.
Qed.

Lemma tab_after_inputEnabled tabId (w : World) t :
  tabId ≠ "" →
  let w' := (updateStore tabId
               {| chatItems := None; loadingChat := None;
                  promptInputDisabledState := Some false;
                  contextCommands := None |} w).2 in
  tabItems w' t = tabItems w t
  ∧ tabLoading w' t = tabLoading w t
  ∧ (tabId = t → is_Some (tabStore w t) → tabInputDisabled w' t = Some false)
  ∧ (tabId ≠ t → tabInputDisabled w' t = tabInputDisabled w t)
  ∧ outbox w' = outbox w.
Proof.
  intros Hne w'. subst w'. rewrite MynahUiFacts.updateStore_existing by done.
  unfold tabItems, tabLoading, tabInputDisabled, tabStore; simpl.
  destruct (decide (tabId = t)) as [->|Hd].
  - rewrite lookup_alter_eq.
    destruct (tabs (ui w) !! t) as [st|]; simpl.
    + split; [done|]. split; [done|]. split; [done|]. split; [by intros ?|done].
    + split; [done|]. split; [done|]. split; [by intros _ [? ?]|]. done.
  - rewrite lookup_alter_ne by done. done.
Qed.

Lemma onFollowUpClicked_auth_run tabId messageId f t (s : Session) :
  act_type f = Some t → isValidAuthFollowUpType t = true →
  (onFollowUpClicked isValidAuthFollowUpType tabId messageId f s).2 =
  {| world := (updateStore tabId
                 {| chatItems := None; loadingChat := None;
                    promptInputDisabledState := Some false;
                    contextCommands := None |} (world s)).2;
     effects := effects s ++ [OnAuthFollowUpClicked tabId messageId t] |}.
Proof.
  intros Ht Hv. unfold onFollowUpClicked. rewrite Ht, Hv. done.
Qed.

Lemma addChatResponse_auth_run r tabId (w : World) fu o rest t :
  cr_body r = Some "" → cr_followUp r = Some fu →
  fu_options fu = Some (o :: rest) →
  act_type o = Some t → t ≠ "" → isValidAuthFollowUpType t = true →
  addChatResponse isValidAuthFollowUpType r tabId false w =
  addChatItem tabId
    {| ci_type := SYSTEM_PROMPT; ci_fields := chatResultWithoutType r |} w.
Proof.
  intros Hb Hfu Hopt Hty Hne Hv.
  unfold addChatResponse, bodyIsEmptyString.
  rewrite (MynahUiFacts.isValidAuthFollowUp_intro isValidAuthFollowUpType r fu o rest t)
    by done.
  rewrite Hb. simpl.
  destruct (objectKeysLength r) eqn:E; [|done].
  unfold objectKeysLength in E. rewrite Hb in E. simpl in E. lia.
Qed.

(** X16.  The authentication path does not end the turn.  When a final
    result that is an authentication follow-up arrives in a tab and its
    first option is clicked, the tab has one more item, the
    system-prompt notice, its loading flag is what it was before, no
    streaming item was closed, its input is enabled, and the only
    message is the authentication follow-up click: no prompt is sent. *)
Theorem auth_follow_up_then_click
    (r : ChatResult) (tabId messageId : string) (s : Session)
    (fu : FollowUp) (o : ChatItemAction) (rest : list ChatItemAction) (t : string) :
  cr_body r = Some "" → cr_followUp r = Some fu →
  fu_options fu = Some (o :: rest) →
  act_type o = Some t → t ≠ "" → isValidAuthFollowUpType t = true →
  tabId ≠ "" → is_Some (tabStore (world s) tabId) →
  let s' := ((lift (addChatResponse isValidAuthFollowUpType r tabId false) ;;;
              onFollowUpClicked isValidAuthFollowUpType tabId messageId o) s).2 in
  let notice := {| ci_type := SYSTEM_PROMPT; ci_fields := chatResultWithoutType r |} in
  tabItems (world s') tabId = tabItems (world s) tabId ++ [notice]
  ∧ streaming (tabItems (world s') tabId) = streaming (tabItems (world s) tabId)
  ∧ tabLoading (world s') tabId = tabLoading (world s) tabId
  ∧ tabInputDisabled (world s') tabId = Some false
  ∧ outbox (world s') = outbox (world s)
  ∧ effects s' = effects s ++ [OnAuthFollowUpClicked tabId messageId t].
Proof.
  intros Hb Hfu Hopt Hty Hne Hv Htab Hex s' notice. subst s'.
  unfold sbind. rewrite (onFollowUpClicked_auth_run tabId messageId o t) by done.
  unfold lift. cbn [fst snd world effects].
  rewrite (addChatResponse_auth_run r tabId (world s) fu o rest t) by done.
  fold notice.
  set (w1 := (addChatItem tabId notice (world s)).2).
  destruct (MynahUiFacts.tab_after_addChatItem tabId notice (world s) tabId)
    as (Hi1 & Hl1 & _ & Hex1).
  fold w1 in Hi1, Hl1, Hex1. rewrite decide_True in Hi1 by done.
  destruct (tab_after_inputEnabled tabId w1 tabId Htab) as (Hi2 & Hl2 & Hd2 & _ & Ho2).
  cbv zeta in Hi2, Hl2, Hd2, Ho2.
  assert (is_Some (tabStore w1 tabId)) as Hex1' by by apply Hex1.
  split; [by rewrite Hi2, Hi1|].
  split.
  { rewrite Hi2, Hi1. unfold streaming. rewrite filter_app, length_app.
    change (length (filter _ [notice])) with 0. lia. }
  split; [by rewrite Hl2, Hl1|].
  split; [by apply Hd2|].
  split; [by rewrite Ho2|done].
Qed.

End Events.

(** ** The properties above at concrete states *)


Lemma addChatResponse_unknown_tab_witness :
  tabs (ui (addChatResponse Samples.isValidAuthFollowUpType Samples.answerResult
              "gone" false Samples.oneTab).2)
  = tabs (ui Samples.oneTab).
Proof.
  destruct (addChatResponse_unknown_tab Samples.isValidAuthFollowUpType
              Samples.answerResult "gone" false Samples.oneTab) as (H & _).
  - discriminate.
  - reflexivity.
  - exact H.
Defined.

Lemma handleChatPrompt_free_text_witness :
  tabLoading (handleChatPrompt "t1" MoreSamples.freeText (Some "click")
                MoreSamples.idleWorld).2 "t1" = Some true
  ∧ outbox (handleChatPrompt "t1" MoreSamples.freeText (Some "click")
              MoreSamples.idleWorld).2
    = [OnChatPrompt MoreSamples.freeText "t1" (Some "click")].
Proof.
  destruct (handleChatPrompt_free_text "t1" MoreSamples.freeText (Some "click")
              MoreSamples.idleWorld) as (Ho & _ & Ht & _).
  - left. reflexivity.
  - discriminate.
  - destruct Ht as (_ & Hl & _); [vm_compute; eexists; reflexivity|].
    split; [exact Hl|exact Ho].
Defined.

Lemma turn_round_trip_witness :
  tabLoading
    ((handleChatPrompt "t1" MoreSamples.freeText (Some "click") ;;
      addChatResponse Samples.isValidAuthFollowUpType Samples.answerResult "t1" false)
       MoreSamples.idleWorld).2 "t1" = Some false.
Proof.
  destruct (turn_round_trip Samples.isValidAuthFollowUpType "t1" MoreSamples.freeText
              (Some "click") Samples.answerResult MoreSamples.idleWorld)
    as (_ & _ & Hl & _).
  - left. reflexivity.
  - discriminate.
  - vm_compute. eexists. reflexivity.
  - vm_compute. lia.
  - left. discriminate.
  - exact Hl.
Defined.

Lemma getOrCreateTabId_again_witness :
  getOrCreateTabId Samples.createTab
    (getOrCreateTabId Samples.createTab
       (Samples.worldOf [("t1", Samples.busyTab)] None)).2
  = (Some "tab-0",
     (getOrCreateTabId Samples.createTab
        (Samples.worldOf [("t1", Samples.busyTab)] None)).2).
Proof.
  apply (getOrCreateTabId_again Samples.createTab
           (Samples.worldOf [("t1", Samples.busyTab)] None) "tab-0").
  reflexivity.
Defined.

Lemma sendGenericCommand_loading_witness :
  tabStore (sendGenericCommand Samples.createTab MoreSamples.explainSelection
              Samples.oneTab).2 "t1"
  = tabStore Samples.oneTab "t1"
  ∧ selectedTabId (ui (sendGenericCommand Samples.createTab
                         MoreSamples.explainSelection Samples.oneTab).2)
    = Some "tab-0".
Proof.
  destruct (sendGenericCommand_loading Samples.createTab MoreSamples.explainSelection
              Samples.oneTab "t1") as [H _].
  - reflexivity.
  - discriminate.
  - reflexivity.
  - destruct H as (H1 & _ & H3 & _).
    + vm_compute. lia.
    + discriminate.
    + split; [exact H1|exact H3].
Defined.

Lemma sendGenericCommand_idle_witness :
  tabLoading (sendGenericCommand Samples.createTab MoreSamples.explainSelection
                MoreSamples.idleWorld).2 "t1" = Some true.
Proof.
  destruct (sendGenericCommand_idle Samples.createTab MoreSamples.explainSelection
              MoreSamples.idleWorld "t1") as (_ & _ & Hl & _).
  - reflexivity.
  - discriminate.
  - vm_compute. eexists. reflexivity.
  - discriminate.
  - exact Hl.
Defined.

Lemma sendContextCommands_broadcast_witness :
  contextCommandGroups
    (sendContextCommands Samples.toMynahIcon
       [mkContextCommandGroup None Samples.sampleTree] Samples.twoTabs).2
  = Some (map (toContextCommandChild Samples.toMynahIcon)
            [mkContextCommandGroup None Samples.sampleTree]).
Proof.
  destruct (sendContextCommands_broadcast Samples.toMynahIcon
              [mkContextCommandGroup None Samples.sampleTree] Samples.twoTabs)
    as [H _].
  - reflexivity.
  - exact H.
Defined.

Lemma openTab_reply_witness :
  effects (openTab Samples.createTab "r7"
             {| ot_tabId := None; ot_messages := None |}
             (MoreSamples.sessionOf Samples.fullTabs)).2
  = [OnOpenTab "r7" (OpenTabError "InvalidRequest" "No more tabs available")].
Proof.
  destruct (openTab_reply Samples.createTab "r7"
              {| ot_tabId := None; ot_messages := None |}
              (MoreSamples.sessionOf Samples.fullTabs))
    as (_ & pre & res & He & _ & Herr & _).
  destruct (proj2 Herr) as (ty & m & ->).
  - split; [by left|]. vm_compute. lia.
  - reflexivity.
Defined.

Lemma sendToPrompt_target_witness :
  effects (sendToPrompt Samples.createTab
             {| sp_selection := "x + 1"; sp_triggerType := "contextMenu" |}
             (MoreSamples.sessionOf Samples.oneTab)).2
  = [AddToUserPrompt "t1" "x + 1" "code";
     OnSendToPrompt {| sp_selection := "x + 1"; sp_triggerType := "contextMenu" |} "t1"].
Proof.
  destruct (sendToPrompt_target Samples.createTab
              {| sp_selection := "x + 1"; sp_triggerType := "contextMenu" |}
              (MoreSamples.sessionOf Samples.oneTab)) as (_ & H & _).
  destruct (H "t1") as [_ He].
  - reflexivity.
  - discriminate.
  - exact He.
Defined.

Lemma auth_follow_up_then_click_witness :
  tabLoading
    (world ((lift (addChatResponse Samples.isValidAuthFollowUpType
                     Samples.authResult "t1" false) ;;;
             onFollowUpClicked Samples.isValidAuthFollowUpType "t1" "m1"
               MoreSamples.authOption)
              (MoreSamples.sessionOf Samples.oneTab)).2) "t1" = Some true
  ∧ tabInputDisabled
      (world ((lift (addChatResponse Samples.isValidAuthFollowUpType
                       Samples.authResult "t1" false) ;;;
               onFollowUpClicked Samples.isValidAuthFollowUpType "t1" "m1"
                 MoreSamples.authOption)
                (MoreSamples.sessionOf Samples.oneTab)).2) "t1" = Some false.
Proof.
  destruct (auth_follow_up_then_click Samples.isValidAuthFollowUpType
              Samples.authResult "t1" "m1" (MoreSamples.sessionOf Samples.oneTab)
              {| fu_text := None; fu_options := Some [MoreSamples.authOption] |}
              MoreSamples.authOption [] "full-auth")
    as (_ & _ & Hl & Hd & _).
  - reflexivity.
  - reflexivity.
  - reflexivity.
  - reflexivity.
  - discriminate.
  - reflexivity.
  - discriminate.
  - vm_compute. eexists. reflexivity.
  - split; [|exact Hd]. etrans; [exact Hl|reflexivity].
Defined.

End ControllerFacts.
